(** * Dependency risk scorer of project-load-analyzer

    A shallow embedding of [analyzeDependencies.execute]
    (src/mastra/tools/analyzeDependencies.ts, reproduced in the README) and
    of the catalog [heavyPackagesList] it consults, together with the
    properties the specification states about them.

    The tool is TypeScript running on a JavaScript engine, so the embedding
    follows the run-time behaviour of the statements as written:

    - a JS number is an integer or [NaN]; every finite number the scorer
      produces is a sum of catalog weights over distinct keys, far below
      2^53, so integer arithmetic is exact;
    - a JS object is the list of its own properties in creation order, and
      [own_property_order] gives the order in which [Object.keys] and the
      spread operator visit them (array indices first, ascending, then the
      other keys in creation order);
    - [heavyPackagesList] is a plain object literal: reading
      [heavyPackagesList[pkgName]] also finds the members it inherits from
      [Object.prototype];
    - [JSON.parse] belongs to the engine and is a parameter of [execute];
      [None] stands for the [SyntaxError] it throws;
    - a JS string is a Rocq [string], one character per code unit, which
      covers the strings whose code units stay below 256; package names
      and the catalog are plain ASCII.

    The deterministic parts of the tools around the scorer are embedded as
    well: what [projectHeavinessAnalyzer] computes before it writes its
    prompt, the choice of files in [generateReadmeFromRepo], and the
    rounding in [getRepoSize]. Their collaborators ([getFileContent], the
    GitHub client, the text generator) are parameters or stay outside. *)

From Stdlib Require Import ZArith Lia Ascii String QArith Qround.
From stdpp Require Import base tactics option list strings pretty sorting gmap.

Open Scope Z_scope.

(** ** Numbers *)

Inductive number :=
| Num (z : Z)
| NaN.

#[global] Instance number_eq_dec : EqDecision number.
Proof. solve_decision. Defined.

(** [a + b] on numbers. *)
Definition number_add (a b : number) : number :=
  match a, b with
  | Num x, Num y => Num (x + y)
  | _, _ => NaN
  end.

(** [a <= b], [a < b] and [a === b]: every comparison with [NaN] is false. *)
Definition number_leb (a b : number) : bool :=
  match a, b with
  | Num x, Num y => x <=? y
  | _, _ => false
  end.

Definition number_ltb (a b : number) : bool :=
  match a, b with
  | Num x, Num y => x <? y
  | _, _ => false
  end.

Definition number_eqb (a b : number) : bool :=
  match a, b with
  | Num x, Num y => x =? y
  | _, _ => false
  end.

(** [ToNumber] of a value that is a number or [undefined]. *)
Definition to_number (v : option Z) : number :=
  match v with
  | Some z => Num z
  | None => NaN
  end.

(** [v || 0] for [v] a number or [undefined]: [undefined], [0] and [NaN]
    are falsy. *)
Definition or_zero (v : option number) : number :=
  match v with
  | Some (Num z) => if z =? 0 then Num 0 else Num z
  | Some NaN => Num 0
  | None => Num 0
  end.

(** Sum of a list of numbers, left to right from [0]. *)
Definition number_sum (l : list number) : number :=
  foldl number_add (Num 0) l.

(** ** Values produced by [JSON.parse] *)

Unset Elimination Schemes.
Inductive json :=
| JNull
| JBool (b : bool)
| JNumber (literal : string)
| JString (s : string)
| JArray (elements : list json)
| JObject (properties : list (string * json)).
Set Elimination Schemes.

(** The payload of [JNumber] is the literal as written; the scorer never
    looks at the numeric value of anything in the manifest. *)

Inductive error :=
| SyntaxError
| TypeError.

Inductive completion (A : Type) :=
| Return (a : A)
| Throw (e : error).
Arguments Return {A} a.
Arguments Throw {A} e.

(** ** Objects: own properties and their order *)

Section Properties.
Context {A : Type}.

(** [o[k]] restricted to own properties. *)
Fixpoint own_property (o : list (string * A)) (k : string) : option A :=
  match o with
  | [] => None
  | (k', v) :: o' => if decide (k = k') then Some v else own_property o' k
  end.

(** [CreateDataProperty(o, k, v)]: overwrite in place, or append. *)
Fixpoint create_data_property (k : string) (v : A) (o : list (string * A))
  : list (string * A) :=
  match o with
  | [] => [(k, v)]
  | (k', v') :: o' =>
      if decide (k = k') then (k, v) :: o'
      else (k', v') :: create_data_property k v o'
  end.

End Properties.

Definition digit_value (c : ascii) : option N :=
  let n := N_of_ascii c in
  if ((48 <=? n) && (n <=? 57))%N then Some (n - 48)%N else None.

Fixpoint decimal_value (acc : N) (s : string) : option N :=
  match s with
  | EmptyString => Some acc
  | String c s' =>
      match digit_value c with
      | Some d => decimal_value (10 * acc + d)%N s'
      | None => None
      end
  end.

(** A property key is an array index when it is the canonical decimal
    spelling of an integer between 0 and 2^32 - 2. *)
Definition array_index (k : string) : option N :=
  match k with
  | EmptyString => None
  | String c EmptyString => digit_value c
  | String c _ =>
      if decide (c = "0"%char) then None
      else match decimal_value 0 k with
           | Some n => if (n <? 4294967295)%N then Some n else None
           | None => None
           end
  end.

Definition is_array_index (k : string) : Prop := is_Some (array_index k).

Definition index_le {A : Type} (p q : string * A) : Prop :=
  (default 0 (array_index p.1) <= default 0 (array_index q.1))%N.

#[global] Instance index_le_dec {A : Type} (p q : string * A) :
  Decision (index_le p q).
Proof. unfold index_le. apply _. Defined.

(** [OrdinaryOwnPropertyKeys]: array indices in ascending order, then the
    remaining string keys in creation order. *)
Definition own_property_order {A : Type} (o : list (string * A))
  : list (string * A) :=
  merge_sort index_le (filter (λ p, is_array_index p.1) o)
  ++ filter (λ p, ¬ is_array_index p.1) o.

(** [Object.keys(o)] for an object all of whose own properties are
    enumerable. *)
Definition Object_keys {A : Type} (o : list (string * A)) : list string :=
  (own_property_order o).*1.

(** The own enumerable properties a spread [...v] copies, in order.
    [undefined] and [null] contribute nothing, neither do booleans and
    numbers; a string contributes one property per code unit and an array
    one per element. *)
Definition spread_source (v : option json) : list (string * json) :=
  match v with
  | None => []
  | Some JNull => []
  | Some (JBool _) => []
  | Some (JNumber _) => []
  | Some (JString s) =>
      imap (λ i c, (pretty i, JString (String c EmptyString)))
           (list_ascii_of_string s)
  | Some (JArray xs) => imap (λ i x, (pretty i, x)) xs
  | Some (JObject o) => own_property_order o
  end.

(** [{ ...target, ...v }] continued from an object under construction. *)
Definition spread (target : list (string * json)) (v : option json)
  : list (string * json) :=
  foldl (λ o p, create_data_property p.1 p.2 o) target (spread_source v).

(** [pkg.name] for [name] one of ["dependencies"], ["devDependencies"]:
    a [TypeError] on [null]; on an object the own property if there is one;
    [undefined] otherwise, since no built-in prototype defines either
    name. *)
Definition get_member (pkg : json) (name : string) : completion (option json) :=
  match pkg with
  | JNull => Throw TypeError
  | JObject o => Return (own_property o name)
  | _ => Return None
  end.

(** ** The catalog *)

Record HeavyPackageEntry := {
  weight : Z;
  category : string;
}.

#[global] Instance HeavyPackageEntry_eq_dec : EqDecision HeavyPackageEntry.
Proof. solve_decision. Defined.

(** The properties of the [heavyPackagesList] literal, in source order. *)
Definition heavyPackagesList_entries : list (string * HeavyPackageEntry) := [
  ("tensorflow", {| weight := 10; category := "AI/ML" |});
  ("@tensorflow/tfjs", {| weight := 8; category := "AI/ML" |});
  ("torch", {| weight := 10; category := "AI/ML" |});
  ("opencv", {| weight := 9; category := "Computer Vision" |});
  ("mediapipe", {| weight := 8; category := "Computer Vision" |});

  ("puppeteer", {| weight := 8; category := "Browser Automation" |});
  ("playwright", {| weight := 8; category := "Browser Automation" |});
  ("selenium-webdriver", {| weight := 7; category := "Browser Automation" |});

  ("sharp", {| weight := 7; category := "Image Processing" |});
  ("jimp", {| weight := 5; category := "Image Processing" |});
  ("canvas", {| weight := 6; category := "Image Processing" |});
  ("ffmpeg", {| weight := 9; category := "Video Processing" |});
  ("node-ffmpeg", {| weight := 9; category := "Video Processing" |});

  ("mysql2", {| weight := 4; category := "Database" |});
  ("pg", {| weight := 4; category := "Database" |});
  ("mongodb", {| weight := 5; category := "Database" |});
  ("redis", {| weight := 4; category := "Database" |});
  ("elasticsearch", {| weight := 6; category := "Database" |});

  ("webpack", {| weight := 5; category := "Build Tools" |});
  ("vite", {| weight := 4; category := "Build Tools" |});
  ("rollup", {| weight := 4; category := "Build Tools" |});
  ("parcel", {| weight := 4; category := "Build Tools" |});

  ("next", {| weight := 5; category := "Framework" |});
  ("nuxt", {| weight := 5; category := "Framework" |});
  ("electron", {| weight := 7; category := "Desktop" |});

  ("bcrypt", {| weight := 4; category := "Crypto" |});
  ("crypto", {| weight := 3; category := "Crypto" |});
  ("argon2", {| weight := 4; category := "Crypto" |});

  ("pdf-parse", {| weight := 4; category := "File Processing" |});
  ("xlsx", {| weight := 4; category := "File Processing" |});
  ("archiver", {| weight := 3; category := "File Processing" |});

  ("jest", {| weight := 3; category := "Testing" |});
  ("cypress", {| weight := 6; category := "Testing" |});
  ("@storybook/react", {| weight := 5; category := "Testing" |})
].

(** The own properties of [heavyPackagesList], as a map. *)
Definition heavyPackagesList : gmap string HeavyPackageEntry :=
  list_to_map heavyPackagesList_entries.

(** The property names of [Object.prototype], which every object literal
    inherits. Each of them holds a function, except [__proto__], whose
    getter returns [Object.prototype] itself: all are truthy, and none has
    a [weight] or a [category]. *)
Definition Object_prototype : list string := [
  "constructor"; "__defineGetter__"; "__defineSetter__"; "hasOwnProperty";
  "__lookupGetter__"; "__lookupSetter__"; "isPrototypeOf";
  "propertyIsEnumerable"; "toString"; "valueOf"; "__proto__";
  "toLocaleString"
].

(** What [heavyPackagesList[pkgName]] evaluates to when it is not
    [undefined]. *)
Inductive member :=
| Entry (e : HeavyPackageEntry)
| Inherited (name : string).

(** [heavyPackagesList[pkgName]]: an own property, else an inherited one,
    else [undefined]. *)
Definition heavyPackagesList_get (pkgName : string) : option member :=
  match heavyPackagesList !! pkgName with
  | Some e => Some (Entry e)
  | None =>
      if decide (pkgName ∈ Object_prototype) then Some (Inherited pkgName)
      else None
  end.

(** [const { weight, category } = m]. *)
Definition member_weight (m : member) : option Z :=
  match m with
  | Entry e => Some (weight e)
  | Inherited _ => None
  end.

Definition member_category (m : member) : option string :=
  match m with
  | Entry e => Some (category e)
  | Inherited _ => None
  end.

(** [ToPropertyKey] of a value that is a string or [undefined]. *)
Definition to_property_key (v : option string) : string :=
  match v with
  | Some s => s
  | None => "undefined"
  end.

(** ** The report *)

Inductive RiskLevel := LOW | MEDIUM | HIGH | CRITICAL.

#[global] Instance RiskLevel_eq_dec : EqDecision RiskLevel.
Proof. solve_decision. Defined.

Record Analysis := {
  hasBrowserAutomation : bool;
  hasAI : bool;
  hasImageProcessing : bool;
  hasVideoProcessing : bool;
  hasDatabase : bool;
  totalDependencies : nat;
}.

(** [categories] is an object; its keys are category labels of the catalog
    or ["undefined"], never array indices, so creation order is the order
    [Object.entries] reports. *)
Record DependencyAnalysis := {
  heavyPackages : list string;
  totalWeight : number;
  categories : list (string * number);
  riskLevel : RiskLevel;
  analysis : Analysis;
}.

(** The fixed name arrays of the five capability flags. *)
Definition browserAutomation_names : list string :=
  ["puppeteer"; "playwright"; "selenium-webdriver"].
Definition AI_names : list string :=
  ["tensorflow"; "@tensorflow/tfjs"; "torch"; "opencv"; "mediapipe"].
Definition imageProcessing_names : list string :=
  ["sharp"; "jimp"; "canvas"].
Definition videoProcessing_names : list string :=
  ["ffmpeg"; "node-ffmpeg"].
Definition database_names : list string :=
  ["mysql2"; "pg"; "mongodb"; "redis"; "elasticsearch"].

(** [names.includes(pkg)] and [heavyPackages.some(pkg => names.includes(pkg))]. *)
Definition includes (names : list string) (pkg : string) : bool :=
  bool_decide (pkg ∈ names).

Definition some_included (names heavy : list string) : bool :=
  existsb (includes names) heavy.

(** ** The scan *)

Record scan := {
  scan_totalWeight : number;
  scan_categories : list (string * number);
  scan_heavyPackages : list string;
}.

Definition scan_init : scan :=
  {| scan_totalWeight := Num 0; scan_categories := []; scan_heavyPackages := [] |}.

(** The body of the [forEach] callback. *)
Definition scan_step (st : scan) (pkgName : string) : scan :=
  match heavyPackagesList_get pkgName with
  | Some m =>
      let weight := member_weight m in
      let category := to_property_key (member_category m) in
      {| scan_heavyPackages := scan_heavyPackages st ++ [pkgName];
         scan_totalWeight := number_add (scan_totalWeight st) (to_number weight);
         scan_categories :=
           create_data_property category
             (number_add (or_zero (own_property (scan_categories st) category))
                         (to_number weight))
             (scan_categories st) |}
  | None => st
  end.

Definition classify (totalWeight : number) : RiskLevel :=
  if number_leb totalWeight (Num 5) then LOW
  else if number_leb totalWeight (Num 15) then MEDIUM
  else if number_leb totalWeight (Num 30) then HIGH
  else CRITICAL.

(** [{ ...pkg.dependencies, ...pkg.devDependencies }]. *)
Definition allDeps (pkg : json) : completion (list (string * json)) :=
  match get_member pkg "dependencies" with
  | Throw e => Throw e
  | Return deps =>
      match get_member pkg "devDependencies" with
      | Throw e => Throw e
      | Return devDeps => Return (spread (spread [] deps) devDeps)
      end
  end.

(** The statements of the [try] block after [JSON.parse]. *)
Definition analyze (pkg : json) : completion DependencyAnalysis :=
  match allDeps pkg with
  | Throw e => Throw e
  | Return allDeps =>
      let keys := Object_keys allDeps in
      let st := foldl scan_step scan_init keys in
      let heavy := scan_heavyPackages st in
      Return
        {| heavyPackages := heavy;
           totalWeight := scan_totalWeight st;
           categories := scan_categories st;
           riskLevel := classify (scan_totalWeight st);
           analysis :=
             {| hasBrowserAutomation := some_included browserAutomation_names heavy;
                hasAI := some_included AI_names heavy;
                hasImageProcessing := some_included imageProcessing_names heavy;
                hasVideoProcessing := some_included videoProcessing_names heavy;
                hasDatabase := some_included database_names heavy;
                totalDependencies := length keys |} |}
  end.

(** The report of the [catch] block. *)
Definition zero_report : DependencyAnalysis :=
  {| heavyPackages := [];
     totalWeight := Num 0;
     categories := [];
     riskLevel := LOW;
     analysis :=
       {| hasBrowserAutomation := false;
          hasAI := false;
          hasImageProcessing := false;
          hasVideoProcessing := false;
          hasDatabase := false;
          totalDependencies := 0 |} |}.

Section Execute.
Variable JSON_parse : string → option json.

(** The [try] block. *)
Definition execute_try (packageJson : string) : completion DependencyAnalysis :=
  match JSON_parse packageJson with
  | None => Throw SyntaxError
  | Some pkg => analyze pkg
  end.

(** [analyzeDependencies.execute]: the [catch] clause has no binding and
    answers every exception alike. *)
Definition execute (packageJson : string) : DependencyAnalysis :=
  match execute_try packageJson with
  | Return r => r
  | Throw _ => zero_report
  end.

End Execute.

(** ** A reference deserializer

    [execute] takes the deserializer as a parameter. The examples below run
    it with this reader of the JSON grammar (ECMA-404), which builds
    objects the way [JSON.parse] does: a repeated key keeps its first
    position and takes the last value. It covers texts whose strings stay
    within one-byte code units; an escape [\uXXXX] above [\u00FF] has no
    counterpart in [string] and is refused. *)

Definition quotation_mark : ascii := "034"%char.

Definition is_whitespace (c : ascii) : bool :=
  let n := N_of_ascii c in
  ((n =? 32) || (n =? 9) || (n =? 10) || (n =? 13))%N.

Fixpoint skip_whitespace (s : string) : string :=
  match s with
  | String c s' => if is_whitespace c then skip_whitespace s' else s
  | EmptyString => s
  end.

Fixpoint strip_prefix (p s : string) : option string :=
  match p, s with
  | EmptyString, _ => Some s
  | String a p', String b s' => if decide (a = b) then strip_prefix p' s' else None
  | String _ _, EmptyString => None
  end.

(** The longest prefix of digits, and what follows it. *)
Fixpoint take_digits (s : string) : string * string :=
  match s with
  | String c s' =>
      match digit_value c with
      | Some _ => let '(d, r) := take_digits s' in (String c d, r)
      | None => (EmptyString, s)
      end
  | EmptyString => (EmptyString, EmptyString)
  end.

Definition take_sign (signs : list ascii) (s : string) : string * string :=
  match s with
  | String c s' =>
      if decide (c ∈ signs) then (String c EmptyString, s') else (EmptyString, s)
  | EmptyString => (EmptyString, s)
  end.

(** A number: an optional minus sign; an integer part with no superfluous
    leading zero; an optional fraction, a point and at least one digit; an
    optional exponent, [e] or [E], an optional sign and at least one digit.
    Each part returns the literal read so far and the rest of the text. *)
Definition parse_integer_part (s : string) : option (string * string) :=
  let '(sign, s1) := take_sign ["-"%char] s in
  let '(int, s2) := take_digits s1 in
  match int with
  | EmptyString => None
  | String c EmptyString => Some (sign +:+ int, s2)
  | String c (String _ _) =>
      if decide (c = "0"%char) then None else Some (sign +:+ int, s2)
  end.

Definition parse_fraction (lit s : string) : option (string * string) :=
  match s with
  | String "." s' =>
      let '(frac, r) := take_digits s' in
      match frac with
      | EmptyString => None
      | String _ _ => Some (lit +:+ "." +:+ frac, r)
      end
  | _ => Some (lit, s)
  end.

Definition parse_exponent (lit s : string) : option (string * string) :=
  match s with
  | String c s' =>
      if decide (c ∈ ["e"%char; "E"%char]) then
        let '(sign, s1) := take_sign ["+"%char; "-"%char] s' in
        let '(digits, r) := take_digits s1 in
        match digits with
        | EmptyString => None
        | String _ _ => Some (lit +:+ String c sign +:+ digits, r)
        end
      else Some (lit, s)
  | EmptyString => Some (lit, s)
  end.

Definition parse_number (s : string) : option (string * string) :=
  match parse_integer_part s with
  | Some (lit, s1) =>
      match parse_fraction lit s1 with
      | Some (lit', s2) => parse_exponent lit' s2
      | None => None
      end
  | None => None
  end.

Definition hex_value (c : ascii) : option N :=
  let n := N_of_ascii c in
  if ((48 <=? n) && (n <=? 57))%N then Some (n - 48)%N
  else if ((65 <=? n) && (n <=? 70))%N then Some (n - 55)%N
  else if ((97 <=? n) && (n <=? 102))%N then Some (n - 87)%N
  else None.

(** The character a two-character escape stands for. *)
Definition unescape (c : ascii) : option ascii :=
  if decide (c = quotation_mark) then Some quotation_mark
  else if decide (c = "\"%char) then Some "\"%char
  else if decide (c = "/"%char) then Some "/"%char
  else if decide (c = "b"%char) then Some "008"%char
  else if decide (c = "f"%char) then Some "012"%char
  else if decide (c = "n"%char) then Some "010"%char
  else if decide (c = "r"%char) then Some "013"%char
  else if decide (c = "t"%char) then Some "009"%char
  else None.

(** The characters of a string after its opening quotation mark, up to the
    closing one. *)
Fixpoint parse_characters (s : string) : option (string * string) :=
  match s with
  | EmptyString => None
  | String c r =>
      if decide (c = quotation_mark) then Some (EmptyString, r)
      else if decide (c = "\"%char) then
        match r with
        | String "u" (String h1 (String h2 (String h3 (String h4 r')))) =>
            match hex_value h1, hex_value h2, hex_value h3, hex_value h4 with
            | Some 0%N, Some 0%N, Some d3, Some d4 =>
                match parse_characters r' with
                | Some (cs, rest) =>
                    Some (String (ascii_of_N (16 * d3 + d4)) cs, rest)
                | None => None
                end
            | _, _, _, _ => None
            end
        | String e r' =>
            match unescape e, parse_characters r' with
            | Some c', Some (cs, rest) => Some (String c' cs, rest)
            | _, _ => None
            end
        | EmptyString => None
        end
      else if (N_of_ascii c <? 32)%N then None
      else match parse_characters r with
           | Some (cs, rest) => Some (String c cs, rest)
           | None => None
           end
  end.

Fixpoint parse_value (fuel : nat) (s : string) : option (json * string) :=
  match fuel with
  | O => None
  | S fuel' =>
      match skip_whitespace s with
      | EmptyString => None
      | String c r as s' =>
          if decide (c = "{"%char) then
            match skip_whitespace r with
            | String "}" r' => Some (JObject [], r')
            | r1 => parse_members fuel' [] r1
            end
          else if decide (c = "["%char) then
            match skip_whitespace r with
            | String "]" r' => Some (JArray [], r')
            | r1 => parse_elements fuel' [] r1
            end
          else if decide (c = quotation_mark) then
            match parse_characters r with
            | Some (str, r') => Some (JString str, r')
            | None => None
            end
          else
            match strip_prefix "true" s', strip_prefix "false" s',
                  strip_prefix "null" s' with
            | Some r', _, _ => Some (JBool true, r')
            | _, Some r', _ => Some (JBool false, r')
            | _, _, Some r' => Some (JNull, r')
            | None, None, None =>
                match parse_number s' with
                | Some (lit, r') => Some (JNumber lit, r')
                | None => None
                end
            end
      end
  end
with parse_elements (fuel : nat) (acc : list json) (s : string)
  : option (json * string) :=
  match fuel with
  | O => None
  | S fuel' =>
      match parse_value fuel' s with
      | Some (v, r) =>
          match skip_whitespace r with
          | String c r' =>
              if decide (c = ","%char) then parse_elements fuel' (acc ++ [v]) r'
              else if decide (c = "]"%char) then Some (JArray (acc ++ [v]), r')
              else None
          | EmptyString => None
          end
      | None => None
      end
  end
with parse_members (fuel : nat) (acc : list (string * json)) (s : string)
  : option (json * string) :=
  match fuel with
  | O => None
  | S fuel' =>
      match skip_whitespace s with
      | String c r =>
          if decide (c = quotation_mark) then
            match parse_characters r with
            | Some (k, r1) =>
                match skip_whitespace r1 with
                | String ":" r2 =>
                    match parse_value fuel' r2 with
                    | Some (v, r3) =>
                        match skip_whitespace r3 with
                        | String c' r4 =>
                            if decide (c' = ","%char) then
                              parse_members fuel' (create_data_property k v acc) r4
                            else if decide (c' = "}"%char) then
                              Some (JObject (create_data_property k v acc), r4)
                            else None
                        | EmptyString => None
                        end
                    | None => None
                    end
                | _ => None
                end
            | None => None
            end
          else None
      | EmptyString => None
      end
  end.

(** One value, surrounded by optional white space, and nothing else. Of
    two nested calls of the reader at least one consumes a character, so
    twice the length of the text is fuel enough. *)
Definition reference_parse (text : string) : option json :=
  match parse_value (2 * String.length text + 2) text with
  | Some (v, r) =>
      match skip_whitespace r with
      | EmptyString => Some v
      | String _ _ => None
      end
  | None => None
  end.

(** Manifest texts are written below with an apostrophe where the text has
    a quotation mark. *)
Fixpoint manifest_text (s : string) : string :=
  match s with
  | EmptyString => EmptyString
  | String c s' =>
      String (if decide (c = "'"%char) then quotation_mark else c)
             (manifest_text s')
  end.

(** ** Vocabulary of the properties *)

(** [heavyPackagesList[k]] is truthy. *)
Definition is_heavy (k : string) : Prop := is_Some (heavyPackagesList_get k).

(** What the scan adds to [totalWeight] for a key it pushes. *)
Definition weight_number (k : string) : number :=
  match heavyPackagesList_get k with
  | Some m => to_number (member_weight m)
  | None => Num 0
  end.

(** The catalog names filed under a category label. *)
Definition category_names (label : string) : list string :=
  (filter (λ p, category p.2 = label) heavyPackagesList_entries).*1.

(** A dependency set: absent, or an object (whose keys are distinct). *)
Definition dependency_object (v : option json) : bool :=
  match v with
  | None => true
  | Some (JObject o) => bool_decide (NoDup o.*1)
  | Some _ => false
  end.

(** A manifest as the specification pictures it: an object whose
    [dependencies] and [devDependencies] are dependency sets. *)
Definition well_formed (pkg : json) : bool :=
  match pkg with
  | JObject props =>
      dependency_object (own_property props "dependencies")
      && dependency_object (own_property props "devDependencies")
  | _ => false
  end.

(** The properties of the object a manifest holds under [field]; none
    when the manifest holds no object there. *)
Definition object_of (v : option json) : list (string * json) :=
  match v with
  | Some (JObject o) => o
  | _ => []
  end.

Definition dependencies_of (field : string) (pkg : json) : list (string * json) :=
  match pkg with
  | JObject props => object_of (own_property props field)
  | _ => []
  end.

(** The manifest [pkg] with one more property [k: v] in the object under
    [field], written as the [i]-th property of that object (the object is
    created when the manifest has none). *)
Definition add_dependency (field : string) (i : nat) (k : string) (v : json)
    (pkg : json) : json :=
  match pkg with
  | JObject props =>
      let o := dependencies_of field pkg in
      JObject (create_data_property field
                 (JObject (take i o ++ (k, v) :: drop i o)) props)
  | _ => pkg
  end.

(** Categories whose values are all integers, and the sum of the values. *)
Definition as_numbers (zs : list (string * Z)) : list (string * number) :=
  (λ p, (p.1, Num p.2)) <$> zs.

Definition total_of (zs : list (string * Z)) : Z :=
  foldr (λ p s, p.2 + s) 0 zs.

(** ** Manifests of the specification's scenarios *)

Definition scenario_puppeteer : string :=
  manifest_text
    "{'dependencies': {'puppeteer': '^1.0', 'left-pad': '^1.0'}, 'devDependencies': {}}".

Definition scenario_tensorflow : string :=
  manifest_text
    "{'dependencies': {'tensorflow': '^1', 'sharp': '^1'}, 'devDependencies': {'jest': '^1'}}".

Definition manifest_tensorflow : json :=
  JObject [
    ("dependencies",
     JObject [("tensorflow", JString "^1"); ("sharp", JString "^1")]);
    ("devDependencies", JObject [("jest", JString "^1")])
  ].

(** A name declared in both dependency sets. *)
Definition manifest_shadowed : json :=
  JObject [
    ("dependencies", JObject [("left-pad", JString "^1.0.0")]);
    ("devDependencies", JObject [("left-pad", JString "^2.0.0")])
  ].

(** A dependency named like a member of [Object.prototype]. *)
Definition scenario_constructor : string :=
  manifest_text "{'dependencies': {'constructor': '^1.0.0'}}".

Definition manifest_constructor : json :=
  JObject [("dependencies", JObject [("constructor", JString "^1.0.0")])].

(** ** The scorer, further vocabulary *)

(** The report [analyze] builds once the keys of the merged mapping are
    known. *)
Definition report_of_keys (keys : list string) : DependencyAnalysis :=
  let st := foldl scan_step scan_init keys in
  let heavy := scan_heavyPackages st in
  {| heavyPackages := heavy;
     totalWeight := scan_totalWeight st;
     categories := scan_categories st;
     riskLevel := classify (scan_totalWeight st);
     analysis :=
       {| hasBrowserAutomation := some_included browserAutomation_names heavy;
          hasAI := some_included AI_names heavy;
          hasImageProcessing := some_included imageProcessing_names heavy;
          hasVideoProcessing := some_included videoProcessing_names heavy;
          hasDatabase := some_included database_names heavy;
          totalDependencies := length keys |} |}.

(** The names a well-formed manifest declares: those of [dependencies] as
    written, then those of [devDependencies] that [dependencies] lacks. *)
Definition declared_names (pkg : json) : list string :=
  (dependencies_of "dependencies" pkg).*1
  ++ filter (λ k, k ∉ (dependencies_of "dependencies" pkg).*1)
            (dependencies_of "devDependencies" pkg).*1.

(** The category key the scan files a heavy key under. *)
Definition heavy_label (k : string) : option string :=
  (λ m, to_property_key (member_category m)) <$> heavyPackagesList_get k.

(** The tiers in ascending order. *)
Definition risk_rank (r : RiskLevel) : nat :=
  match r with
  | LOW => 0
  | MEDIUM => 1
  | HIGH => 2
  | CRITICAL => 3
  end.

(** The sum of all catalog weights. *)
Definition catalog_total : Z :=
  foldr (λ p s, weight p.2 + s) 0 heavyPackagesList_entries.

(** The catalog weight of a name, 0 for a name outside the catalog, and
    the sum over a list of names. *)
Definition catalog_weight (k : string) : Z :=
  match heavyPackagesList !! k with
  | Some e => weight e
  | None => 0
  end.

Definition catalog_weight_sum (l : list string) : Z :=
  foldr (λ k s, catalog_weight k + s) 0 l.

(** The catalog weight filed under a category label by a list of names. *)
Definition category_weight (label : string) (l : list string) : Z :=
  catalog_weight_sum (filter (λ k, heavy_label k = Some label) l).

(** * The other tools *)

(** ** Strings *)

(** [s.endsWith(suffix)]: some tail of [s] is [suffix]. *)
Fixpoint endsWith (s suffix : string) : bool :=
  if String.eqb s suffix then true
  else match s with
       | EmptyString => false
       | String _ s' => endsWith s' suffix
       end.

(** [l.join(sep)] on an array of strings, and [s || fallback]: the empty
    string is falsy. *)
Definition join (sep : string) (l : list string) : string :=
  String.concat sep l.

Definition or_else (s fallback : string) : string :=
  match s with
  | EmptyString => fallback
  | String _ _ => s
  end.

(** A number in a template literal. *)
Definition number_to_string (n : number) : string :=
  match n with
  | Num z => pretty z
  | NaN => "NaN"
  end.

(** ** projectHeavinessAnalyzer *)

(** What [getFileContent.execute] resolves to, as far as the analyzer
    reads it. *)
Record FileResult := {
  ok : bool;
  content : string;
}.

(** The initial value of [dependencyAnalysis]. *)
Definition default_dependencyAnalysis : DependencyAnalysis :=
  {| heavyPackages := [];
     totalWeight := Num 0;
     categories := [];
     riskLevel := LOW;
     analysis :=
       {| hasBrowserAutomation := false;
          hasAI := false;
          hasImageProcessing := false;
          hasVideoProcessing := false;
          hasDatabase := false;
          totalDependencies := 0 |} |}.

Section Analyzer.
Variable JSON_parse : string → option json.
(** [getFileContent.execute] for the repository at hand, by path. *)
Variable getFileContent : string → FileResult.

(** [packageJson] and [dependencyAnalysis] once the [if (hasPackageJson)]
    statement is through. *)
Definition dependency_stage (paths : list string) : string * DependencyAnalysis :=
  let hasPackageJson := includes paths "package.json" in
  if hasPackageJson then
    let fileRes := getFileContent "package.json" in
    if ok fileRes then
      (content fileRes, execute JSON_parse (content fileRes))
    else (EmptyString, default_dependencyAnalysis)
  else (EmptyString, default_dependencyAnalysis).

End Analyzer.

Record FileTypes := {
  typescript : nat;
  javascript : nat;
  python : nat;
  java : nat;
  go : nat;
  rust : nat;
  cpp : nat;
}.

Definition fileTypes (paths : list string) : FileTypes :=
  {| typescript := length (List.filter (λ p, endsWith p ".ts") paths);
     javascript := length (List.filter (λ p, endsWith p ".js") paths);
     python := length (List.filter (λ p, endsWith p ".py") paths);
     java := length (List.filter (λ p, endsWith p ".java") paths);
     go := length (List.filter (λ p, endsWith p ".go") paths);
     rust := length (List.filter (λ p, endsWith p ".rs") paths);
     cpp := length (List.filter (λ p, endsWith p ".cpp" || endsWith p ".c") paths) |}.

(** The lines of the prompt that render the dependency analysis lists. *)
Definition heavyPackages_line (r : DependencyAnalysis) : string :=
  or_else (join ", " (heavyPackages r)) "None".

Definition categories_line (r : DependencyAnalysis) : string :=
  or_else
    (join ", "
       ((λ entry, entry.1 +:+ ": " +:+ number_to_string entry.2)
          <$> own_property_order (categories r)))
    "None".

(** The manifest as quoted in the prompt:
    [packageJson.slice(0, 2000)] and an ellipsis when text was cut. *)
Definition packageJson_excerpt (packageJson : string) : string :=
  substring 0 2000 packageJson
  +:+ (if (2000 <? String.length packageJson)%nat then "..." else EmptyString).

(** ** generateReadmeFromRepo *)

Definition important (p : string) : bool :=
  endsWith p ".ts" || endsWith p ".js" || endsWith p ".java"
  || endsWith p ".py" || String.eqb p "package.json"
  || String.eqb p "tsconfig.json".

(** The paths whose content is fetched: [importantPaths.slice(0, 10)]. *)
Definition importantPaths (paths : list string) : list string :=
  List.filter important paths.

Definition fetched_paths (paths : list string) : list string :=
  take 10 (importantPaths paths).

(** ** getRepoSize

    [res.data.size] is a whole number of kilobytes. Dividing it by 1024 and
    multiplying by 100 are exact on JS numbers for any size below 2^46, so
    [Math.round] receives the exact fraction and returns the integer
    computed here; the number the tool returns is the one nearest to that
    integer over 100. *)




(** * Properties *)

(** Membership in a list given by its elements. *)
Ltac elem_of_list :=
  repeat first [apply list_elem_of_here | apply list_elem_of_further].

(** ** Numbers *)

Lemma number_add_comm a b : number_add a b = number_add b a.
Proof. destruct a, b; simpl; f_equal; lia. Qed.

Lemma number_add_assoc a b c :
  number_add (number_add a b) c = number_add a (number_add b c).
Proof. destruct a, b, c; simpl; f_equal; lia. Qed.

Lemma foldl_number_add_start a l :
  foldl number_add a l = number_add a (foldl number_add (Num 0) l).
Proof.
  revert a. induction l as [|x l IH]; intros a; cbn [foldl].
  - destruct a; simpl; f_equal; lia.
  - rewrite (IH (number_add a x)), (IH (number_add (Num 0) x)).
    rewrite <- number_add_assoc. f_equal.
    destruct a, x; simpl; f_equal; lia.
Qed.

Lemma foldl_number_add_perm a (l1 l2 : list number) :
  l1 ≡ₚ l2 → foldl number_add a l1 = foldl number_add a l2.
Proof.
  intros Hp. revert a.
  induction Hp as [|x l1 l2 _ IH|x y l|l1 l2 l3 _ IH1 _ IH2]; intros a; simpl.
  - done.
  - apply IH.
  - f_equal. rewrite !number_add_assoc. f_equal. apply number_add_comm.
  - by rewrite IH1.
Qed.

(** ** Own properties *)

Section PropertyLemmas.
Context {A : Type}.
Implicit Types (o : list (string * A)) (k : string) (v : A).

Lemma own_property_Some o k v : own_property o k = Some v → (k, v) ∈ o.
Proof.
  induction o as [|[k' v'] o IH]; simpl; [done|].
  destruct (decide (k = k')) as [->|Hne]; intros Hs.
  - injection Hs as ->. apply list_elem_of_here.
  - apply list_elem_of_further. auto.
Qed.

Lemma own_property_None o k : own_property o k = None ↔ k ∉ o.*1.
Proof.
  induction o as [|[k' v'] o IH]; cbn [own_property fmap list_fmap fst].
  - split; [intros _; apply not_elem_of_nil | done].
  - rewrite not_elem_of_cons. destruct (decide (k = k')) as [->|Hne].
    + split; [done | intros [? _]; done].
    + rewrite IH. tauto.
Qed.

Lemma own_property_NoDup o k v :
  NoDup o.*1 → (k, v) ∈ o → own_property o k = Some v.
Proof.
  induction o as [|[k' v'] o IH]; cbn [own_property fmap list_fmap fst];
    intros Hnd Hin.
  - by apply elem_of_nil in Hin.
  - apply NoDup_cons in Hnd as [Hk Hnd].
    apply elem_of_cons in Hin as [Heq|Hin].
    + injection Heq as -> ->. by destruct (decide (k' = k')).
    + destruct (decide (k = k')) as [->|Hne]; [|auto].
      destruct Hk. apply list_elem_of_fmap. by exists (k', v).
Qed.

Lemma create_data_property_keys k v o :
  (create_data_property k v o).*1 =
  if decide (k ∈ o.*1) then o.*1 else o.*1 ++ [k].
Proof.
  induction o as [|[k' v'] o IH];
    cbn [create_data_property fmap list_fmap fst].
  - rewrite decide_False; [done | apply not_elem_of_nil].
  - destruct (decide (k = k')) as [->|Hne];
      cbn [create_data_property fmap list_fmap fst].
    + rewrite decide_True; [done | apply list_elem_of_here].
    + rewrite IH. destruct (decide (k ∈ o.*1)) as [Hin|Hin].
      * rewrite decide_True; [done | by apply list_elem_of_further].
      * rewrite decide_False; [done|].
        rewrite elem_of_cons. tauto.
Qed.

Lemma create_data_property_elem k v o x :
  x ∈ (create_data_property k v o).*1 ↔ x = k ∨ x ∈ o.*1.
Proof.
  rewrite create_data_property_keys.
  destruct (decide (k ∈ o.*1)) as [Hin|Hin].
  - split; [tauto | intros [->|?]; done].
  - rewrite elem_of_app, list_elem_of_singleton. tauto.
Qed.

Lemma create_data_property_NoDup k v o :
  NoDup o.*1 → NoDup (create_data_property k v o).*1.
Proof.
  intros Hnd. rewrite create_data_property_keys. case_decide; [done|].
  apply NoDup_app. split_and!; [done | | apply NoDup_singleton].
  intros x Hx ->%list_elem_of_singleton. done.
Qed.

Lemma own_property_create_eq k v o :
  own_property (create_data_property k v o) k = Some v.
Proof.
  induction o as [|[k' v'] o IH]; cbn [create_data_property own_property].
  - by destruct (decide (k = k)).
  - destruct (decide (k = k')) as [->|Hne]; cbn [own_property].
    + by destruct (decide (k' = k')).
    + by destruct (decide (k = k')).
Qed.

Lemma own_property_create_ne k k' v o :
  k ≠ k' → own_property (create_data_property k v o) k' = own_property o k'.
Proof.
  intros Hne.
  induction o as [|[k1 v1] o IH]; cbn [create_data_property own_property].
  - by destruct (decide (k' = k)) as [->|].
  - destruct (decide (k = k1)) as [->|Hne1]; cbn [own_property].
    + by destruct (decide (k' = k1)) as [->|].
    + by rewrite IH.
Qed.

End PropertyLemmas.

(** ** Order of own properties *)

Lemma own_property_order_perm {A : Type} (o : list (string * A)) :
  own_property_order o ≡ₚ o.
Proof.
  unfold own_property_order. rewrite merge_sort_Permutation.
  apply filter_app_complement.
Qed.

Lemma Object_keys_perm {A : Type} (o : list (string * A)) :
  Object_keys o ≡ₚ o.*1.
Proof. unfold Object_keys. by rewrite own_property_order_perm. Qed.

Lemma Object_keys_NoDup {A : Type} (o : list (string * A)) :
  NoDup o.*1 → NoDup (Object_keys o).
Proof. by rewrite Object_keys_perm. Qed.

Lemma Object_keys_elem {A : Type} (o : list (string * A)) k :
  k ∈ Object_keys o ↔ k ∈ o.*1.
Proof. by rewrite Object_keys_perm. Qed.

Lemma filter_none {A : Type} (P : A → Prop) `{!∀ x, Decision (P x)}
    (l : list A) :
  (∀ x, x ∈ l → ¬ P x) → filter P l = [].
Proof.
  induction l as [|x l IH]; intros Hl; [done|].
  rewrite filter_cons_False by (apply Hl, list_elem_of_here).
  apply IH. intros y Hy. apply Hl. by apply list_elem_of_further.
Qed.

(** A key is kept where it stands among the keys that are no array
    indices. *)
Lemma Object_keys_filter {A : Type} (P : string → Prop)
    `{!∀ k, Decision (P k)} (o : list (string * A)) :
  (∀ k, P k → ¬ is_array_index k) →
  filter P (Object_keys o) = filter P o.*1.
Proof.
  intros HP. unfold Object_keys, own_property_order.
  rewrite fmap_app, filter_app.
  assert (filter P (merge_sort index_le
            (filter (λ p : string * A, is_array_index p.1) o)).*1 = []) as ->.
  { apply filter_none. intros k Hk HPk. apply (HP k HPk).
    apply list_elem_of_fmap in Hk as [p [-> Hp]].
    rewrite merge_sort_Permutation in Hp.
    by apply list_elem_of_filter in Hp as [? _]. }
  rewrite app_nil_l.
  induction o as [|[k v] o IH]; [done|].
  rewrite (filter_cons (λ p : string * A, ¬ is_array_index p.1)).
  cbn [fst fmap list_fmap].
  destruct (decide (¬ is_array_index k)) as [Hi|Hi];
    cbn [fmap list_fmap fst]; rewrite ?filter_cons, IH;
    destruct (decide (P k)) as [HPk|HPk]; try done.
  destruct Hi. by apply HP.
Qed.

(** ** The merged mapping *)

Lemma foldl_create_elem (src tgt : list (string * json)) k :
  k ∈ (foldl (λ o p, create_data_property p.1 p.2 o) tgt src).*1
  ↔ k ∈ tgt.*1 ∨ k ∈ src.*1.
Proof.
  revert tgt. induction src as [|[k' v'] src IH]; intros tgt; cbn [foldl].
  - cbn [fmap list_fmap]. rewrite elem_of_nil. tauto.
  - rewrite IH, create_data_property_elem. cbn [fmap list_fmap fst snd].
    rewrite elem_of_cons. tauto.
Qed.

Lemma foldl_create_NoDup (src tgt : list (string * json)) :
  NoDup tgt.*1 →
  NoDup (foldl (λ o p, create_data_property p.1 p.2 o) tgt src).*1.
Proof.
  revert tgt. induction src as [|[k' v'] src IH]; intros tgt Hnd; cbn [foldl].
  - done.
  - apply IH. by apply create_data_property_NoDup.
Qed.

(** After the copy, a key of the source holds the last value the source
    gives it; any other key holds what the target held. *)
Lemma foldl_create_own_property (src tgt : list (string * json)) k :
  own_property (foldl (λ o p, create_data_property p.1 p.2 o) tgt src) k =
  match own_property (reverse src) k with
  | Some v => Some v
  | None => own_property tgt k
  end.
Proof.
  revert tgt. induction src as [|[k' v'] src IH]; intros tgt; cbn [foldl].
  - done.
  - rewrite IH, reverse_cons. cbn [fst snd].
    destruct (own_property (reverse src) k) as [v|] eqn:Hr.
    + assert (own_property (reverse src ++ [(k', v')]) k = Some v) as ->; [|done].
      clear -Hr. induction (reverse src) as [|[k1 v1] l IHl];
        cbn [own_property app] in *; [done|].
      destruct (decide (k = k1)); auto.
    + assert (own_property (reverse src ++ [(k', v')]) k =
              if decide (k = k') then Some v' else None) as ->.
      { clear -Hr. induction (reverse src) as [|[k1 v1] l IHl];
          cbn [own_property app] in *; [done|].
        destruct (decide (k = k1)); [done | auto]. }
      destruct (decide (k = k')) as [->|Hne].
      * apply own_property_create_eq.
      * by apply own_property_create_ne.
Qed.

Lemma spread_elem tgt v k :
  k ∈ (spread tgt v).*1 ↔ k ∈ tgt.*1 ∨ k ∈ (spread_source v).*1.
Proof. apply foldl_create_elem. Qed.

Lemma spread_NoDup tgt v : NoDup tgt.*1 → NoDup (spread tgt v).*1.
Proof. apply foldl_create_NoDup. Qed.

Lemma spread_source_object_elem o k :
  k ∈ (spread_source (Some (JObject o))).*1 ↔ k ∈ o.*1.
Proof. cbn [spread_source]. by rewrite own_property_order_perm. Qed.

Lemma allDeps_NoDup pkg m : allDeps pkg = Return m → NoDup m.*1.
Proof.
  unfold allDeps.
  destruct (get_member pkg "dependencies") as [deps|]; [|done].
  destruct (get_member pkg "devDependencies") as [devDeps|]; [|done].
  intros [= <-]. apply spread_NoDup, spread_NoDup. apply NoDup_nil_2.
Qed.

(** ** The scan *)

Lemma scan_step_heavy st k :
  is_heavy k →
  scan_heavyPackages (scan_step st k) = scan_heavyPackages st ++ [k]
  ∧ scan_totalWeight (scan_step st k) =
      number_add (scan_totalWeight st) (weight_number k).
Proof.
  unfold is_heavy, scan_step, weight_number. intros [m ->]. done.
Qed.

Lemma scan_step_skip st k : ¬ is_heavy k → scan_step st k = st.
Proof.
  unfold is_heavy, scan_step. destruct (heavyPackagesList_get k); [|done].
  intros []. by eexists.
Qed.

Lemma scan_heavyPackages_foldl st keys :
  scan_heavyPackages (foldl scan_step st keys) =
  scan_heavyPackages st ++ filter is_heavy keys.
Proof.
  revert st. induction keys as [|k keys IH]; intros st; cbn [foldl].
  - by rewrite filter_nil, app_nil_r.
  - rewrite IH, filter_cons. destruct (decide (is_heavy k)) as [Hk|Hk].
    + destruct (scan_step_heavy st k Hk) as [-> _]. by rewrite <- app_assoc.
    + by rewrite scan_step_skip.
Qed.

Lemma scan_totalWeight_foldl st keys :
  scan_totalWeight (foldl scan_step st keys) =
  foldl number_add (scan_totalWeight st) (weight_number <$> filter is_heavy keys).
Proof.
  revert st. induction keys as [|k keys IH]; intros st; cbn [foldl].
  - done.
  - rewrite IH, filter_cons. destruct (decide (is_heavy k)) as [Hk|Hk].
    + by destruct (scan_step_heavy st k Hk) as [_ ->].
    + by rewrite scan_step_skip.
Qed.

Lemma some_included_true names heavy :
  some_included names heavy = true ↔ ∃ pkg, pkg ∈ heavy ∧ pkg ∈ names.
Proof.
  unfold some_included. rewrite existsb_exists. unfold includes.
  split; intros [pkg [H1 H2]]; exists pkg.
  - apply list_elem_of_In in H1. apply bool_decide_eq_true in H2. done.
  - apply list_elem_of_In in H1. by rewrite bool_decide_eq_true.
Qed.

(** What a report of the [try] block is made of. *)
Lemma analyze_Return pkg r :
  analyze pkg = Return r →
  ∃ m, allDeps pkg = Return m
    ∧ heavyPackages r = filter is_heavy (Object_keys m)
    ∧ totalWeight r =
        foldl number_add (Num 0) (weight_number <$> heavyPackages r)
    ∧ categories r = scan_categories (foldl scan_step scan_init (Object_keys m))
    ∧ riskLevel r = classify (totalWeight r)
    ∧ analysis r =
        {| hasBrowserAutomation :=
             some_included browserAutomation_names (heavyPackages r);
           hasAI := some_included AI_names (heavyPackages r);
           hasImageProcessing :=
             some_included imageProcessing_names (heavyPackages r);
           hasVideoProcessing :=
             some_included videoProcessing_names (heavyPackages r);
           hasDatabase := some_included database_names (heavyPackages r);
           totalDependencies := length (Object_keys m) |}.
Proof.
  unfold analyze. destruct (allDeps pkg) as [m|]; [|done].
  intros [= <-]. exists m. cbn.
  rewrite scan_heavyPackages_foldl, scan_totalWeight_foldl. done.
Qed.

Section ExecuteLemmas.
Variable JSON_parse : string → option json.

(** Every report is the zero report of the [catch] block or a report of
    the [try] block. *)
Lemma execute_cases packageJson :
  (execute JSON_parse packageJson = zero_report
   ∧ ∃ e, execute_try JSON_parse packageJson = Throw e)
  ∨ ∃ pkg, JSON_parse packageJson = Some pkg
         ∧ analyze pkg = Return (execute JSON_parse packageJson).
Proof.
  unfold execute, execute_try.
  destruct (JSON_parse packageJson) as [pkg|]; [|left; eauto].
  destruct (analyze pkg) as [r|e] eqn:Hr; [right; eauto | left; eauto].
Qed.

Lemma execute_ind (P : DependencyAnalysis → Prop) packageJson :
  P zero_report →
  (∀ pkg r, JSON_parse packageJson = Some pkg → analyze pkg = Return r → P r) →
  P (execute JSON_parse packageJson).
Proof.
  intros H0 H1. destruct (execute_cases packageJson) as [[-> _]|[pkg [Hp Hr]]].
  - done.
  - by apply (H1 pkg).
Qed.

End ExecuteLemmas.

(** ** The catalog *)

Lemma heavyPackagesList_entries_NoDup : NoDup heavyPackagesList_entries.*1.
Proof. apply (bool_decide_unpack _). by vm_compute. Qed.

Lemma heavyPackagesList_lookup k e :
  heavyPackagesList !! k = Some e ↔ (k, e) ∈ heavyPackagesList_entries.
Proof.
  unfold heavyPackagesList. symmetry.
  apply elem_of_list_to_map, heavyPackagesList_entries_NoDup.
Qed.

(** Every entry has a weight between 3 and 10; no catalog name is an array
    index or a member of [Object.prototype]; no category label is a member
    of [Object.prototype] or the word ["undefined"]. *)
Lemma heavyPackagesList_entries_Forall :
  Forall (λ p : string * HeavyPackageEntry,
            3 ≤ weight p.2 ≤ 10
            ∧ ¬ is_array_index p.1
            ∧ (p.1 ∉ Object_prototype)
            ∧ (category p.2 ∉ Object_prototype)
            ∧ category p.2 ≠ "undefined")
         heavyPackagesList_entries.
Proof. apply (bool_decide_unpack _). by vm_compute. Qed.

Lemma heavyPackagesList_weight k e :
  heavyPackagesList !! k = Some e → 3 ≤ weight e ≤ 10.
Proof.
  intros Hk%heavyPackagesList_lookup.
  pose proof heavyPackagesList_entries_Forall as HF.
  rewrite Forall_forall in HF. apply (HF _ Hk).
Qed.

Lemma Object_prototype_not_index :
  Forall (λ k, ¬ is_array_index k) Object_prototype.
Proof. apply (bool_decide_unpack _). by vm_compute. Qed.

Lemma is_heavy_not_index k : is_heavy k → ¬ is_array_index k.
Proof.
  unfold is_heavy, heavyPackagesList_get.
  destruct (heavyPackagesList !! k) as [e|] eqn:Hk.
  - intros _. apply heavyPackagesList_lookup in Hk.
    pose proof heavyPackagesList_entries_Forall as HF.
    rewrite Forall_forall in HF. apply (HF _ Hk).
  - destruct (decide (k ∈ Object_prototype)) as [Hin|Hin].
    + intros _. pose proof Object_prototype_not_index as HF.
      rewrite Forall_forall in HF. by apply HF.
    + by intros [? ?].
Qed.

Lemma weight_number_catalog k e :
  heavyPackagesList !! k = Some e → weight_number k = Num (weight e).
Proof. unfold weight_number, heavyPackagesList_get. by intros ->. Qed.

(** What one key adds is [NaN] or a non-negative integer. *)
Lemma weight_number_cases k :
  weight_number k = NaN ∨ ∃ z, weight_number k = Num z ∧ 0 ≤ z.
Proof.
  unfold weight_number, heavyPackagesList_get.
  destruct (heavyPackagesList !! k) as [e|] eqn:Hk.
  - right. exists (weight e). split; [done|].
    apply heavyPackagesList_weight in Hk. lia.
  - destruct (decide (k ∈ Object_prototype)); [by left|].
    right. exists 0. done.
Qed.

(** A sum of such contributions is [NaN] or an integer no smaller than
    its start plus any one of them. *)
Lemma foldl_number_add_bound (l : list number) a :
  (∀ x, x ∈ l → x = NaN ∨ ∃ z, x = Num z ∧ 0 ≤ z) →
  match foldl number_add (Num a) l with
  | NaN => True
  | Num s => a ≤ s ∧ ∀ z, Num z ∈ l → a + z ≤ s
  end.
Proof.
  revert a. induction l as [|x l IH]; intros a Hl; cbn [foldl].
  - split; [lia|]. intros z Hz. by apply elem_of_nil in Hz.
  - destruct (Hl x (list_elem_of_here _ _)) as [->|[z [-> Hz]]]; cbn [number_add].
    + rewrite foldl_number_add_start. done.
    + specialize (IH (a + z)).
      destruct (foldl number_add (Num (a + z)) l) as [s|]; [|done].
      destruct IH as [H1 H2].
      { intros y Hy. apply Hl. by apply list_elem_of_further. }
      split; [lia|]. intros z' Hz'.
      apply elem_of_cons in Hz' as [[= ->]|Hz']; [lia|].
      specialize (H2 z' Hz'). lia.
Qed.

Lemma totalWeight_bound (heavy : list string) :
  match foldl number_add (Num 0) (weight_number <$> heavy) with
  | NaN => True
  | Num s => 0 ≤ s ∧ ∀ k z, k ∈ heavy → weight_number k = Num z → z ≤ s
  end.
Proof.
  pose proof (foldl_number_add_bound (weight_number <$> heavy) 0) as HB.
  destruct (foldl number_add (Num 0) (weight_number <$> heavy)) as [s|]; [|done].
  destruct HB as [H1 H2].
  { intros x [k [-> _]]%list_elem_of_fmap. apply weight_number_cases. }
  split; [done|]. intros k z Hk Hz.
  specialize (H2 z). rewrite <- Hz in H2.
  assert (weight_number k ∈ weight_number <$> heavy) as Hin.
  { apply list_elem_of_fmap. eauto. }
  specialize (H2 Hin). lia.
Qed.

(** It is also at most ten per heavy package, which keeps every finite
    total within the integers a JS number represents exactly. *)
Lemma weight_number_upper k :
  weight_number k = NaN ∨ ∃ z, weight_number k = Num z ∧ z ≤ 10.
Proof.
  unfold weight_number, heavyPackagesList_get.
  destruct (heavyPackagesList !! k) as [e|] eqn:Hk.
  - right. exists (weight e). split; [done|].
    apply heavyPackagesList_weight in Hk. lia.
  - destruct (decide (k ∈ Object_prototype)); [by left|].
    right. exists 0. done.
Qed.

Lemma foldl_number_add_upper (l : list number) a :
  (∀ x, x ∈ l → x = NaN ∨ ∃ z, x = Num z ∧ z ≤ 10) →
  match foldl number_add (Num a) l with
  | NaN => True
  | Num s => s ≤ a + 10 * Z.of_nat (length l)
  end.
Proof.
  revert a. induction l as [|x l IH]; intros a Hl; cbn [foldl length].
  - lia.
  - destruct (Hl x (list_elem_of_here _ _)) as [->|[z [-> Hz]]]; cbn [number_add].
    + rewrite foldl_number_add_start. done.
    + specialize (IH (a + z)).
      destruct (foldl number_add (Num (a + z)) l) as [s|]; [|done].
      assert (s ≤ a + z + 10 * Z.of_nat (length l)); [|lia].
      apply IH. intros y Hy. apply Hl. by apply list_elem_of_further.
Qed.

Lemma totalWeight_upper pkg r z :
  analyze pkg = Return r →
  totalWeight r = Num z →
  0 ≤ z ≤ 10 * Z.of_nat (length (heavyPackages r)).
Proof.
  intros (m & _ & _ & Ht & _)%analyze_Return Hz. rewrite Ht in Hz.
  pose proof (totalWeight_bound (heavyPackages r)) as HB.
  pose proof (foldl_number_add_upper (weight_number <$> heavyPackages r) 0) as HU.
  rewrite Hz, length_fmap in *. split; [apply HB|].
  apply HU. intros x [k [-> _]]%list_elem_of_fmap. apply weight_number_upper.
Qed.

(** ** Classification *)

Lemma classify_table z :
  (z ≤ 5 → classify (Num z) = LOW)
  ∧ (6 ≤ z ≤ 15 → classify (Num z) = MEDIUM)
  ∧ (16 ≤ z ≤ 30 → classify (Num z) = HIGH)
  ∧ (31 ≤ z → classify (Num z) = CRITICAL).
Proof.
  unfold classify, number_leb.
  destruct (Z.leb_spec z 5), (Z.leb_spec z 15), (Z.leb_spec z 30);
    repeat split; intros; (done || lia).
Qed.

Lemma classify_NaN : classify NaN = CRITICAL.
Proof. done. Qed.

(** ** The soft failure *)

(** C1: when the manifest text fails to deserialize, the [try] block ends
    in the [SyntaxError] and the scorer still returns a report, the zero
    report: no heavy packages, total weight 0, no categories, risk level
    LOW, the five capability flags false and zero dependencies. *)
Theorem deserialization_failure_zero_report
    (JSON_parse : string → option json) (packageJson : string) :
  JSON_parse packageJson = None →
  execute_try JSON_parse packageJson = Throw SyntaxError
  ∧ execute JSON_parse packageJson = zero_report
  ∧ heavyPackages (execute JSON_parse packageJson) = []
  ∧ totalWeight (execute JSON_parse packageJson) = Num 0
  ∧ categories (execute JSON_parse packageJson) = []
  ∧ riskLevel (execute JSON_parse packageJson) = LOW
  ∧ hasBrowserAutomation (analysis (execute JSON_parse packageJson)) = false
  ∧ hasAI (analysis (execute JSON_parse packageJson)) = false
  ∧ hasImageProcessing (analysis (execute JSON_parse packageJson)) = false
  ∧ hasVideoProcessing (analysis (execute JSON_parse packageJson)) = false
  ∧ hasDatabase (analysis (execute JSON_parse packageJson)) = false
  ∧ totalDependencies (analysis (execute JSON_parse packageJson)) = 0%nat.
Proof.
  intros Hparse. unfold execute, execute_try. rewrite Hparse.
  repeat split.
Qed.

Lemma deserialization_failure_witness :
  reference_parse "{not json" = None
  ∧ execute reference_parse "{not json" = zero_report
  ∧ execute reference_parse EmptyString = zero_report
  ∧ execute reference_parse (manifest_text "{'dependencies': {'puppeteer': '^1.0'")
    = zero_report.
Proof.
  split; [by vm_compute|].
  split; [|split].
  - apply (deserialization_failure_zero_report reference_parse "{not json").
    by vm_compute.
  - apply (deserialization_failure_zero_report reference_parse EmptyString).
    by vm_compute.
  - apply (deserialization_failure_zero_report reference_parse).
    by vm_compute.
Defined.

(** A text that deserializes to [null] takes the same exit: reading
    [pkg.dependencies] throws inside the [try] block. *)
Lemma null_manifest_zero_report (JSON_parse : string → option json) packageJson :
  JSON_parse packageJson = Some JNull →
  execute JSON_parse packageJson = zero_report.
Proof. intros Hparse. unfold execute, execute_try. by rewrite Hparse. Qed.

(** ** Risk level *)

(** The total weight of a report is [NaN] or a non-negative integer. *)
Lemma totalWeight_cases (JSON_parse : string → option json) packageJson :
  totalWeight (execute JSON_parse packageJson) = NaN
  ∨ ∃ z, totalWeight (execute JSON_parse packageJson) = Num z ∧ 0 ≤ z.
Proof.
  apply execute_ind.
  - right. exists 0. done.
  - intros pkg r _ (m & _ & _ & -> & _)%analyze_Return.
    pose proof (totalWeight_bound (heavyPackages r)) as HB.
    destruct (foldl number_add (Num 0) (weight_number <$> heavyPackages r))
      as [s|]; [|by left].
    right. exists s. split; [done | apply HB].
Qed.

(** C2: the risk level of every report is [classify] of its total weight,
    a fixed function; for an integer total it is LOW from 0 to 5, MEDIUM
    from 6 to 15, HIGH from 16 to 30 and CRITICAL from 31 on, so 5 gives
    LOW, 6 and 15 MEDIUM, 16 and 30 HIGH, 31 CRITICAL. *)
Theorem riskLevel_thresholds
    (JSON_parse : string → option json) (packageJson : string) :
  riskLevel (execute JSON_parse packageJson)
    = classify (totalWeight (execute JSON_parse packageJson))
  ∧ (∀ z, totalWeight (execute JSON_parse packageJson) = Num z →
       (0 ≤ z ≤ 5 ∧ riskLevel (execute JSON_parse packageJson) = LOW)
       ∨ (6 ≤ z ≤ 15 ∧ riskLevel (execute JSON_parse packageJson) = MEDIUM)
       ∨ (16 ≤ z ≤ 30 ∧ riskLevel (execute JSON_parse packageJson) = HIGH)
       ∨ (31 ≤ z ∧ riskLevel (execute JSON_parse packageJson) = CRITICAL))
  ∧ classify (Num 5) = LOW
  ∧ classify (Num 6) = MEDIUM
  ∧ classify (Num 15) = MEDIUM
  ∧ classify (Num 16) = HIGH
  ∧ classify (Num 30) = HIGH
  ∧ classify (Num 31) = CRITICAL.
Proof.
  assert (riskLevel (execute JSON_parse packageJson)
          = classify (totalWeight (execute JSON_parse packageJson))) as Hc.
  { apply (execute_ind JSON_parse (λ r, riskLevel r = classify (totalWeight r))).
    - done.
    - by intros pkg r _ (m & _ & _ & _ & _ & -> & _)%analyze_Return. }
  split; [done|]. split; [|by repeat split].
  intros z Hz. rewrite Hc, Hz.
  destruct (totalWeight_cases JSON_parse packageJson) as [Hn|[z' [Hz' Hpos]]];
    [congruence|].
  assert (z' = z) as -> by congruence.
  destruct (classify_table z) as (H1 & H2 & H3 & H4).
  destruct (decide (z ≤ 5)); [left; split; [lia | auto]|].
  destruct (decide (z ≤ 15)); [right; left; split; [lia | apply H2; lia]|].
  destruct (decide (z ≤ 30)); [right; right; left; split; [lia | apply H3; lia]|].
  right; right; right. split; [lia | apply H4; lia].
Qed.

(** Manifests that reach the six boundary totals. *)
Example boundary_manifests :
  map (λ t, let r := execute reference_parse (manifest_text t) in
            (totalWeight r, riskLevel r))
    ["{'dependencies': {'jimp': '1'}}";
     "{'dependencies': {'canvas': '1'}}";
     "{'dependencies': {'tensorflow': '1', 'jimp': '1'}}";
     "{'dependencies': {'tensorflow': '1', 'canvas': '1'}}";
     "{'dependencies': {'tensorflow': '1', 'torch': '1'}, 'devDependencies': {'jimp': '1', 'mongodb': '1'}}";
     "{'dependencies': {'tensorflow': '1', 'torch': '1'}, 'devDependencies': {'jimp': '1', 'canvas': '1'}}"]
  = [(Num 5, LOW); (Num 6, MEDIUM); (Num 15, MEDIUM);
     (Num 16, HIGH); (Num 30, HIGH); (Num 31, CRITICAL)].
Proof. by vm_compute. Qed.

Lemma riskLevel_thresholds_witness :
  totalWeight (execute reference_parse
                 (manifest_text "{'dependencies': {'tensorflow': '1', 'canvas': '1'}}"))
    = Num 16
  ∧ riskLevel (execute reference_parse
                 (manifest_text "{'dependencies': {'tensorflow': '1', 'canvas': '1'}}"))
    = HIGH.
Proof.
  split; [by vm_compute|].
  destruct (riskLevel_thresholds reference_parse
              (manifest_text "{'dependencies': {'tensorflow': '1', 'canvas': '1'}}"))
    as [_ [Hz _]].
  destruct (Hz 16) as [[? ?]|[[? ?]|[[? ?]|[? ?]]]];
    [by vm_compute | lia | lia | done | lia].
Defined.

(** ** Capability flags *)

Lemma category_names_AI_ML :
  category_names "AI/ML" = ["tensorflow"; "@tensorflow/tfjs"; "torch"].
Proof. by vm_compute. Qed.

Lemma category_names_Computer_Vision :
  category_names "Computer Vision" = ["opencv"; "mediapipe"].
Proof. by vm_compute. Qed.

(** C4, as the specification words it, fails: the name array of [hasAI] is
    not a part of the AI/ML category that leaves some of it out. All three
    AI/ML names are in the array, and so is ["opencv"], which the catalog
    files under Computer Vision. *)
Lemma hasAI_names_not_narrower :
  ¬ (AI_names ⊆ category_names "AI/ML"
     ∧ ¬ category_names "AI/ML" ⊆ AI_names).
Proof.
  intros [_ Hmiss]. apply Hmiss. rewrite category_names_AI_ML.
  intros k Hk. unfold AI_names.
  repeat (apply elem_of_cons in Hk as [->|Hk]; [elem_of_list|]).
  by apply elem_of_nil in Hk.
Qed.

(** C4, amended: the name array of [hasAI] is the AI/ML category followed
    by the Computer Vision category, so it holds every AI/ML name and two
    names from outside that category. *)
Theorem hasAI_names_two_categories :
  AI_names = category_names "AI/ML" ++ category_names "Computer Vision"
  ∧ category_names "AI/ML" ⊆ AI_names
  ∧ ¬ AI_names ⊆ category_names "AI/ML"
  ∧ heavyPackagesList !! "opencv"
    = Some {| weight := 9; category := "Computer Vision" |}
  ∧ heavyPackagesList !! "mediapipe"
    = Some {| weight := 8; category := "Computer Vision" |}.
Proof.
  rewrite category_names_AI_ML, category_names_Computer_Vision.
  split; [done|]. split; [|split; [|by vm_compute]].
  - intros k Hk. unfold AI_names.
    repeat (apply elem_of_cons in Hk as [->|Hk]; [elem_of_list|]).
    by apply elem_of_nil in Hk.
  - intros Hsub. specialize (Hsub "opencv").
    assert ("opencv" ∈ ["tensorflow"; "@tensorflow/tfjs"; "torch"]) as Hin.
    { apply Hsub. unfold AI_names. elem_of_list. }
    repeat (apply elem_of_cons in Hin as [[=]|Hin]).
    by apply elem_of_nil in Hin.
Qed.

(** C6: in every report, each of the five capability flags is true exactly
    when [heavyPackages] holds a name of the flag's name array. *)
Theorem flags_iff_heavyPackages
    (JSON_parse : string → option json) (packageJson : string) :
  (hasBrowserAutomation (analysis (execute JSON_parse packageJson)) = true ↔
     ∃ pkg, pkg ∈ heavyPackages (execute JSON_parse packageJson)
            ∧ pkg ∈ browserAutomation_names)
  ∧ (hasAI (analysis (execute JSON_parse packageJson)) = true ↔
     ∃ pkg, pkg ∈ heavyPackages (execute JSON_parse packageJson)
            ∧ pkg ∈ AI_names)
  ∧ (hasImageProcessing (analysis (execute JSON_parse packageJson)) = true ↔
     ∃ pkg, pkg ∈ heavyPackages (execute JSON_parse packageJson)
            ∧ pkg ∈ imageProcessing_names)
  ∧ (hasVideoProcessing (analysis (execute JSON_parse packageJson)) = true ↔
     ∃ pkg, pkg ∈ heavyPackages (execute JSON_parse packageJson)
            ∧ pkg ∈ videoProcessing_names)
  ∧ (hasDatabase (analysis (execute JSON_parse packageJson)) = true ↔
     ∃ pkg, pkg ∈ heavyPackages (execute JSON_parse packageJson)
            ∧ pkg ∈ database_names).
Proof.
  apply (execute_ind JSON_parse (λ r,
    (hasBrowserAutomation (analysis r) = true ↔
       ∃ pkg, pkg ∈ heavyPackages r ∧ pkg ∈ browserAutomation_names)
    ∧ (hasAI (analysis r) = true ↔
       ∃ pkg, pkg ∈ heavyPackages r ∧ pkg ∈ AI_names)
    ∧ (hasImageProcessing (analysis r) = true ↔
       ∃ pkg, pkg ∈ heavyPackages r ∧ pkg ∈ imageProcessing_names)
    ∧ (hasVideoProcessing (analysis r) = true ↔
       ∃ pkg, pkg ∈ heavyPackages r ∧ pkg ∈ videoProcessing_names)
    ∧ (hasDatabase (analysis r) = true ↔
       ∃ pkg, pkg ∈ heavyPackages r ∧ pkg ∈ database_names))).
  - cbn. repeat split; try done; intros [pkg [Hin _]]; by apply elem_of_nil in Hin.
  - intros pkg r _ (m & _ & _ & _ & _ & _ & ->)%analyze_Return. cbn.
    repeat split; by apply some_included_true.
Qed.

Lemma flags_iff_heavyPackages_witness :
  hasBrowserAutomation
    (analysis (execute reference_parse
       (manifest_text "{'dependencies': {'puppeteer': '^1.0', 'left-pad': '^1.0'}}")))
  = true.
Proof.
  destruct (flags_iff_heavyPackages reference_parse
    (manifest_text "{'dependencies': {'puppeteer': '^1.0', 'left-pad': '^1.0'}}"))
    as [[_ Hflag] _].
  apply Hflag. exists "puppeteer".
  split; [vm_compute | unfold browserAutomation_names]; elem_of_list.
Defined.

(** ** The scenarios of the specification *)

Example scenario_puppeteer_report :
  execute reference_parse scenario_puppeteer =
  {| heavyPackages := ["puppeteer"];
     totalWeight := Num 8;
     categories := [("Browser Automation", Num 8)];
     riskLevel := MEDIUM;
     analysis :=
       {| hasBrowserAutomation := true;
          hasAI := false;
          hasImageProcessing := false;
          hasVideoProcessing := false;
          hasDatabase := false;
          totalDependencies := 2 |} |}.
Proof. by vm_compute. Qed.

(** C8: for the manifest with dependencies tensorflow and sharp and
    devDependencies jest, the scorer returns the heavy packages tensorflow,
    sharp, jest in that order, total weight 20, the categories AI/ML 10,
    Image Processing 7 and Testing 3, risk level HIGH, and the flags
    [hasAI] and [hasImageProcessing] true. *)
Theorem scenario_tensorflow_report :
  reference_parse scenario_tensorflow = Some manifest_tensorflow
  ∧ analyze manifest_tensorflow = Return (execute reference_parse scenario_tensorflow)
  ∧ execute reference_parse scenario_tensorflow =
    {| heavyPackages := ["tensorflow"; "sharp"; "jest"];
       totalWeight := Num 20;
       categories :=
         [("AI/ML", Num 10); ("Image Processing", Num 7); ("Testing", Num 3)];
       riskLevel := HIGH;
       analysis :=
         {| hasBrowserAutomation := false;
            hasAI := true;
            hasImageProcessing := true;
            hasVideoProcessing := false;
            hasDatabase := false;
            totalDependencies := 3 |} |}.
Proof. by vm_compute. Qed.

(** ** Heavy packages *)

(** The heavy packages are the heavy keys of the merged mapping in the
    order the mapping received them: no heavy key is an array index, so
    the reordering of [Object.keys] does not touch them. *)
Lemma heavyPackages_creation_order pkg r :
  analyze pkg = Return r →
  ∃ m, allDeps pkg = Return m ∧ heavyPackages r = filter is_heavy m.*1.
Proof.
  intros (m & Hm & -> & _)%analyze_Return. exists m. split; [done|].
  apply Object_keys_filter, is_heavy_not_index.
Qed.

(** C9: the heavy packages of every report are pairwise distinct. *)
Theorem heavyPackages_NoDup
    (JSON_parse : string → option json) (packageJson : string) :
  NoDup (heavyPackages (execute JSON_parse packageJson)).
Proof.
  apply execute_ind.
  - apply NoDup_nil_2.
  - intros pkg r _ (m & Hm & -> & _)%analyze_Return.
    apply NoDup_filter, Object_keys_NoDup. by apply (allDeps_NoDup pkg).
Qed.

(** The count [totalDependencies] is the number of keys of the merged
    mapping, which are distinct as well. *)
Lemma totalDependencies_keys pkg r :
  analyze pkg = Return r →
  ∃ m, allDeps pkg = Return m
     ∧ NoDup m.*1
     ∧ totalDependencies (analysis r) = length m.
Proof.
  intros (m & Hm & _ & _ & _ & _ & ->)%analyze_Return. exists m.
  split; [done|]. split; [by apply (allDeps_NoDup pkg)|]. cbn.
  by rewrite Object_keys_perm, length_fmap.
Qed.

(** ** Browser automation *)

Lemma browserAutomation_weight k :
  k ∈ browserAutomation_names → ∃ z, weight_number k = Num z ∧ 7 ≤ z.
Proof.
  unfold browserAutomation_names. intros Hk.
  repeat (apply elem_of_cons in Hk as [->|Hk];
          [eexists; split; [by vm_compute | lia]|]).
  by apply elem_of_nil in Hk.
Qed.

(** C10: a report whose [hasBrowserAutomation] flag is true never has risk
    level LOW: the browser-automation names weigh 7 or 8 in the catalog,
    so a total that is an integer is at least 7, above the LOW band, and a
    total that is no integer is classified CRITICAL. *)
Theorem browserAutomation_not_LOW
    (JSON_parse : string → option json) (packageJson : string) :
  hasBrowserAutomation (analysis (execute JSON_parse packageJson)) = true →
  riskLevel (execute JSON_parse packageJson) ≠ LOW
  ∧ ∀ z, totalWeight (execute JSON_parse packageJson) = Num z → 7 ≤ z.
Proof.
  apply (execute_ind JSON_parse
    (λ r, hasBrowserAutomation (analysis r) = true →
          riskLevel r ≠ LOW ∧ ∀ z, totalWeight r = Num z → 7 ≤ z)).
  - done.
  - intros pkg r _ (m & _ & _ & Htotal & _ & -> & ->)%analyze_Return. cbn.
    intros [k [Hk Hb]]%some_included_true.
    destruct (browserAutomation_weight k Hb) as [z [Hz Hle]].
    pose proof (totalWeight_bound (heavyPackages r)) as HB.
    rewrite <- Htotal in HB.
    destruct (totalWeight r) as [s|]; [|done].
    destruct HB as [_ HB]. specialize (HB k z Hk Hz).
    split; [|intros ? [= <-]; lia].
    unfold classify, number_leb.
    destruct (Z.leb_spec s 5); [lia|].
    by repeat case_match.
Qed.

Lemma browserAutomation_not_LOW_witness :
  hasBrowserAutomation (analysis (execute reference_parse scenario_puppeteer)) = true
  ∧ riskLevel (execute reference_parse scenario_puppeteer) ≠ LOW.
Proof.
  split; [by vm_compute|].
  apply (browserAutomation_not_LOW reference_parse scenario_puppeteer).
  by vm_compute.
Defined.

(** ** A name in both dependency sets *)

(** C3, as the specification words it, fails: in [manifest_shadowed] the
    runtime set gives ["left-pad"] the range ["^1.0.0"] and the development
    set gives it ["^2.0.0"]; the merged mapping holds ["^2.0.0"]. *)
Lemma runtime_value_shadowed :
  well_formed manifest_shadowed = true
  ∧ own_property (dependencies_of "dependencies" manifest_shadowed) "left-pad"
    = Some (JString "^1.0.0")
  ∧ own_property (dependencies_of "devDependencies" manifest_shadowed) "left-pad"
    = Some (JString "^2.0.0")
  ∧ allDeps manifest_shadowed = Return [("left-pad", JString "^2.0.0")]
  ∧ ¬ (∀ m, allDeps manifest_shadowed = Return m →
            own_property m "left-pad"
            = own_property (dependencies_of "dependencies" manifest_shadowed)
                           "left-pad").
Proof.
  repeat split; try by vm_compute.
  intros Hclaim. specialize (Hclaim _ eq_refl). by vm_compute in Hclaim.
Qed.

Lemma own_property_reorder {A : Type} (o l : list (string * A)) k v :
  NoDup o.*1 → l ≡ₚ o → own_property o k = Some v → own_property l k = Some v.
Proof.
  intros Hnd Hperm Hk. apply own_property_NoDup.
  - by rewrite Hperm.
  - rewrite Hperm. by apply own_property_Some.
Qed.

(** C3, amended: when a name is a key of both dependency objects, the
    merged mapping gives it the value of [devDependencies], the object
    spread last. *)
Theorem devDependencies_value_wins (pkg : json) (name : string) (v : json) :
  well_formed pkg = true →
  name ∈ (dependencies_of "dependencies" pkg).*1 →
  own_property (dependencies_of "devDependencies" pkg) name = Some v →
  ∃ m, allDeps pkg = Return m ∧ own_property m name = Some v.
Proof.
  destruct pkg as [| | | | |props]; try done.
  unfold well_formed, dependencies_of, allDeps, get_member.
  intros [_ Hdev]%andb_true_iff _ Hv. eexists. split; [done|].
  destruct (own_property props "devDependencies") as [[| | | | |e]|]; try done.
  apply bool_decide_eq_true_1 in Hdev.
  unfold spread at 1. rewrite foldl_create_own_property.
  cbn [spread_source].
  rewrite (own_property_reorder e _ name v); [done..| |done].
  by rewrite reverse_Permutation, own_property_order_perm.
Qed.

Lemma devDependencies_value_wins_witness :
  ∃ m, allDeps manifest_shadowed = Return m
     ∧ own_property m "left-pad" = Some (JString "^2.0.0").
Proof.
  apply (devDependencies_value_wins manifest_shadowed "left-pad").
  - by vm_compute.
  - vm_compute. elem_of_list.
  - by vm_compute.
Defined.

(** The shadowed name keeps the place the runtime set gave it among the
    keys. *)
Example shadowed_key_position :
  allDeps (JObject [
    ("dependencies", JObject [("sharp", JString "1"); ("jest", JString "1")]);
    ("devDependencies", JObject [("pg", JString "2"); ("sharp", JString "2")])])
  = Return [("sharp", JString "2"); ("jest", JString "1"); ("pg", JString "2")].
Proof. by vm_compute. Qed.

(** ** Total weight and categories *)

(** C5 at a manifest with a dependency named ["constructor"]: the lookup
    [heavyPackagesList["constructor"]] finds the function every object
    inherits, which has neither [weight] nor [category]; the total weight
    becomes [NaN], the key ["undefined"] enters [categories] with [NaN],
    and the total does not equal the sum of the category values. *)
Theorem constructor_total_not_sum :
  reference_parse scenario_constructor = Some manifest_constructor
  ∧ execute reference_parse scenario_constructor =
    {| heavyPackages := ["constructor"];
       totalWeight := NaN;
       categories := [("undefined", NaN)];
       riskLevel := CRITICAL;
       analysis :=
         {| hasBrowserAutomation := false;
            hasAI := false;
            hasImageProcessing := false;
            hasVideoProcessing := false;
            hasDatabase := false;
            totalDependencies := 1 |} |}
  ∧ number_eqb
      (totalWeight (execute reference_parse scenario_constructor))
      (number_sum (categories (execute reference_parse scenario_constructor)).*2)
    = false.
Proof. by vm_compute. Qed.

(** Apart from the inherited names the invariant of the specification
    holds: while every heavy key is an own entry of the catalog, the
    categories hold positive integers that add up to the total weight. *)

Lemma number_sum_as_numbers zs : number_sum (as_numbers zs).*2 = Num (total_of zs).
Proof.
  unfold number_sum. induction zs as [|[c z] zs IH]; [done|].
  cbn [as_numbers fmap list_fmap snd foldl total_of foldr].
  rewrite foldl_number_add_start. unfold as_numbers in IH. rewrite IH.
  cbn. f_equal; lia.
Qed.

Lemma own_property_as_numbers zs c :
  own_property (as_numbers zs) c = Num <$> own_property zs c.
Proof.
  induction zs as [|[c' z] zs IH]; [done|].
  cbn [as_numbers fmap list_fmap own_property fst snd].
  destruct (decide (c = c')); [done | apply IH].
Qed.

Lemma create_data_property_as_numbers zs c z :
  create_data_property c (Num z) (as_numbers zs)
  = as_numbers (create_data_property c z zs).
Proof.
  induction zs as [|[c' z'] zs IH]; [done|].
  cbn [as_numbers fmap list_fmap create_data_property fst snd].
  destruct (decide (c = c')); [done|].
  cbn [fmap list_fmap fst snd]. f_equal. apply IH.
Qed.

Lemma total_of_create_data_property zs c z :
  total_of (create_data_property c z zs)
  = total_of zs - default 0 (own_property zs c) + z.
Proof.
  induction zs as [|[c' z'] zs IH]; cbn [create_data_property own_property].
  - cbn. lia.
  - destruct (decide (c = c')).
    + unfold total_of. cbn. lia.
    + change (total_of ((c', z') :: create_data_property c z zs))
        with (z' + total_of (create_data_property c z zs)).
      change (total_of ((c', z') :: zs)) with (z' + total_of zs).
      rewrite IH. lia.
Qed.

Lemma create_data_property_Forall {A : Type} (P : string * A → Prop) o k v :
  P (k, v) → Forall P o → Forall P (create_data_property k v o).
Proof.
  intros Hkv. induction 1 as [|[k' v'] o Hp Ho IH]; cbn [create_data_property].
  - by apply Forall_singleton.
  - destruct (decide (k = k')); constructor; done.
Qed.

Lemma scan_integer_categories keys st zs :
  (∀ k, k ∈ keys → is_heavy k → k ∉ Object_prototype) →
  scan_categories st = as_numbers zs →
  Forall (λ p, 0 < p.2) zs →
  scan_totalWeight st = Num (total_of zs) →
  ∃ zs', scan_categories (foldl scan_step st keys) = as_numbers zs'
       ∧ Forall (λ p, 0 < p.2) zs'
       ∧ scan_totalWeight (foldl scan_step st keys) = Num (total_of zs').
Proof.
  revert st zs. induction keys as [|k keys IH]; intros st zs Hkeys Hc Hpos Ht.
  - by exists zs.
  - cbn [foldl].
    assert (∀ k', k' ∈ keys → is_heavy k' → k' ∉ Object_prototype) as Hkeys'.
    { intros k' Hk'. apply Hkeys. by apply list_elem_of_further. }
    destruct (decide (is_heavy k)) as [Hk|Hk];
      [|rewrite scan_step_skip by done; by apply (IH st zs)].
    specialize (Hkeys k (list_elem_of_here _ _) Hk).
    unfold scan_step, heavyPackagesList_get.
    destruct (heavyPackagesList !! k) as [e|] eqn:He.
    + pose proof (heavyPackagesList_weight k e He) as Hw.
      cbn [member_weight member_category to_property_key to_number].
      apply (IH _ (create_data_property (category e)
                     (default 0 (own_property zs (category e)) + weight e) zs));
        [done|..]; cbn [scan_categories scan_totalWeight].
      * rewrite Hc, own_property_as_numbers, <- create_data_property_as_numbers.
        f_equal. destruct (own_property zs (category e)) as [z0|] eqn:Hz0; [|done].
        cbn. apply own_property_Some in Hz0.
        rewrite Forall_forall in Hpos. specialize (Hpos _ Hz0). cbn in Hpos.
        destruct (Z.eqb_spec z0 0); [lia | done].
      * apply create_data_property_Forall; [|done]. cbn.
        destruct (own_property zs (category e)) as [z0|] eqn:Hz0; cbn; [|lia].
        apply own_property_Some in Hz0.
        rewrite Forall_forall in Hpos. specialize (Hpos _ Hz0). cbn in Hpos. lia.
      * rewrite Ht, total_of_create_data_property. cbn. f_equal. lia.
    + unfold is_heavy, heavyPackagesList_get in Hk. rewrite He in Hk.
      destruct (decide (k ∈ Object_prototype)); [done | by destruct Hk].
Qed.

Lemma totalWeight_categories_sum pkg r :
  analyze pkg = Return r →
  (∀ k, k ∈ heavyPackages r → k ∉ Object_prototype) →
  ∃ z, totalWeight r = Num z
     ∧ number_sum (categories r).*2 = Num z
     ∧ number_eqb (totalWeight r) (number_sum (categories r).*2) = true.
Proof.
  intros Hr Hkeys. pose proof Hr as (m & Hm & Hh & _ & Hc & _)%analyze_Return.
  unfold analyze in Hr. rewrite Hm in Hr. injection Hr as <-.
  cbn [heavyPackages totalWeight categories] in *.
  destruct (scan_integer_categories (Object_keys m) scan_init []) as (zs & Hzs & _ & Ht);
    try done.
  { intros k Hk Hheavy. apply Hkeys. rewrite Hh.
    by apply list_elem_of_filter. }
  exists (total_of zs). rewrite Ht, Hzs, number_sum_as_numbers.
  repeat split. cbn. apply Z.eqb_refl.
Qed.

(** ** One more dependency *)

Lemma dependency_object_cases d :
  dependency_object d = true → d = None ∨ ∃ o, d = Some (JObject o).
Proof. destruct d as [[| | | | |o]|]; try done; eauto. Qed.

Lemma merged_keys D E x :
  (D = None ∨ ∃ o, D = Some (JObject o)) →
  (E = None ∨ ∃ o, E = Some (JObject o)) →
  x ∈ (spread (spread [] D) E).*1
  ↔ x ∈ (object_of D).*1 ∨ x ∈ (object_of E).*1.
Proof.
  intros HD HE. rewrite !spread_elem.
  assert (∀ d, (d = None ∨ ∃ o, d = Some (JObject o)) →
               x ∈ (spread_source d).*1 ↔ x ∈ (object_of d).*1) as Hsrc.
  { intros d [->|[o ->]]; [done|]. apply spread_source_object_elem. }
  rewrite (Hsrc D HD), (Hsrc E HE). cbn [fmap list_fmap].
  rewrite elem_of_nil. tauto.
Qed.

Lemma inserted_keys {A : Type} (o : list (string * A)) i k v x :
  x ∈ (take i o ++ (k, v) :: drop i o).*1 ↔ x = k ∨ x ∈ o.*1.
Proof.
  rewrite <- (take_drop i o) at 3.
  rewrite !fmap_app, fmap_cons, !elem_of_app, elem_of_cons. cbn. tauto.
Qed.

(** The keys of the merged mapping after [add_dependency]: the new key
    and the keys there were. *)
Lemma add_dependency_keys props field i k v m :
  well_formed (JObject props) = true →
  field ∈ ["dependencies"; "devDependencies"] →
  allDeps (JObject props) = Return m →
  ∃ m', allDeps (add_dependency field i k v (JObject props)) = Return m'
      ∧ ∀ x, x ∈ m'.*1 ↔ x = k ∨ x ∈ m.*1.
Proof.
  intros [HD HE]%andb_true_iff Hfield [= <-].
  apply dependency_object_cases in HD, HE.
  eexists. split; [done|]. intros x.
  cbn [add_dependency dependencies_of get_member].
  rewrite (merged_keys _ _ x HD HE).
  apply elem_of_cons in Hfield as [->|Hfield];
    [|apply list_elem_of_singleton in Hfield as ->].
  - rewrite own_property_create_eq, own_property_create_ne by done.
    rewrite merged_keys by eauto. cbn [object_of].
    rewrite inserted_keys. tauto.
  - rewrite own_property_create_eq, own_property_create_ne by done.
    rewrite merged_keys by eauto. cbn [object_of].
    rewrite inserted_keys. tauto.
Qed.

Lemma analyze_allDeps pkg m :
  allDeps pkg = Return m → ∃ r, analyze pkg = Return r.
Proof. unfold analyze. intros ->. eauto. Qed.

Lemma some_included_perm names (l1 l2 : list string) :
  l1 ≡ₚ l2 → some_included names l1 = some_included names l2.
Proof.
  intros Hp. apply eq_true_iff_eq. rewrite !some_included_true.
  by setoid_rewrite Hp.
Qed.

Lemma some_included_cons names k l :
  some_included names l = true → some_included names (k :: l) = true.
Proof.
  rewrite !some_included_true. intros [p [Hp Hn]]. exists p.
  split; [by apply list_elem_of_further | done].
Qed.

(** C7: a manifest with one more dependency key, a catalog name that was
    in neither dependency object, is scored with the old total weight plus
    the positive catalog weight of the new key, so the total is not below
    the old one, and every capability flag that was true stays true. *)
Theorem add_dependency_monotone
    (pkg : json) (field : string) (i : nat) (k : string) (v : json)
    (e : HeavyPackageEntry) :
  well_formed pkg = true →
  field ∈ ["dependencies"; "devDependencies"] →
  heavyPackagesList !! k = Some e →
  k ∉ (dependencies_of "dependencies" pkg).*1 →
  k ∉ (dependencies_of "devDependencies" pkg).*1 →
  ∃ r r',
    analyze pkg = Return r
    ∧ analyze (add_dependency field i k v pkg) = Return r'
    ∧ 0 < weight e
    ∧ totalWeight r' = number_add (totalWeight r) (Num (weight e))
    ∧ number_ltb (totalWeight r') (totalWeight r) = false
    ∧ (hasBrowserAutomation (analysis r) = true →
       hasBrowserAutomation (analysis r') = true)
    ∧ (hasAI (analysis r) = true → hasAI (analysis r') = true)
    ∧ (hasImageProcessing (analysis r) = true →
       hasImageProcessing (analysis r') = true)
    ∧ (hasVideoProcessing (analysis r) = true →
       hasVideoProcessing (analysis r') = true)
    ∧ (hasDatabase (analysis r) = true → hasDatabase (analysis r') = true).
Proof.
  intros Hwf Hfield He Hk1 Hk2.
  destruct pkg as [| | | | |props]; try done.
  pose proof Hwf as [HD HE]%andb_true_iff.
  apply dependency_object_cases in HD, HE.
  destruct (allDeps (JObject props)) as [m|] eqn:Hm; [|done].
  destruct (add_dependency_keys props field i k v m Hwf Hfield Hm)
    as (m' & Hm' & Hkeys).
  destruct (analyze_allDeps _ _ Hm) as [r Hr].
  destruct (analyze_allDeps _ _ Hm') as [r' Hr'].
  exists r, r'. split; [done|]. split; [done|].
  pose proof (heavyPackagesList_weight k e He) as Hw. split; [lia|].
  assert (k ∉ m.*1) as Hfresh.
  { injection Hm as <-. cbn [get_member]. rewrite merged_keys by done.
    cbn [dependencies_of] in Hk1, Hk2. tauto. }
  assert (Object_keys m' ≡ₚ k :: Object_keys m) as Hperm.
  { apply NoDup_Permutation.
    - eapply Object_keys_NoDup, allDeps_NoDup, Hm'.
    - apply NoDup_cons. rewrite Object_keys_elem. split; [done|].
      eapply Object_keys_NoDup, allDeps_NoDup, Hm.
    - intros x. rewrite elem_of_cons, !Object_keys_elem. apply Hkeys. }
  apply analyze_Return in Hr as (m0 & Hm0 & Hh & Ht & _ & _ & Ha).
  apply analyze_Return in Hr' as (m0' & Hm0' & Hh' & Ht' & _ & _ & Ha').
  assert (m0 = m) as -> by congruence. assert (m0' = m') as -> by congruence.
  assert (heavyPackages r' ≡ₚ k :: heavyPackages r) as Hheavy.
  { rewrite Hh', Hh, Hperm, filter_cons_True; [done|].
    unfold is_heavy, heavyPackagesList_get. rewrite He. by eexists. }
  assert (totalWeight r' = number_add (totalWeight r) (Num (weight e))) as Htotal.
  { rewrite Ht', Ht.
    rewrite (foldl_number_add_perm _ _ (weight_number <$> k :: heavyPackages r))
      by (by rewrite Hheavy).
    cbn [fmap list_fmap foldl]. rewrite foldl_number_add_start.
    rewrite (weight_number_catalog k e He).
    destruct (foldl number_add (Num 0) (weight_number <$> heavyPackages r));
      cbn; f_equal; lia. }
  split; [done|]. split.
  { rewrite Htotal. destruct (totalWeight r) as [z|]; [|done].
    cbn. apply Z.ltb_ge. lia. }
  rewrite Ha, Ha'. cbn.
  rewrite !(some_included_perm _ _ _ Hheavy).
  repeat split; apply some_included_cons.
Qed.

Lemma add_dependency_monotone_witness :
  ∃ r r',
    analyze manifest_tensorflow = Return r
    ∧ analyze (add_dependency "dependencies" 1 "puppeteer" (JString "^22.0.0")
                 manifest_tensorflow) = Return r'
    ∧ 0 < 8
    ∧ totalWeight r' = number_add (totalWeight r) (Num 8)
    ∧ number_ltb (totalWeight r') (totalWeight r) = false
    ∧ (hasBrowserAutomation (analysis r) = true →
       hasBrowserAutomation (analysis r') = true)
    ∧ (hasAI (analysis r) = true → hasAI (analysis r') = true)
    ∧ (hasImageProcessing (analysis r) = true →
       hasImageProcessing (analysis r') = true)
    ∧ (hasVideoProcessing (analysis r) = true →
       hasVideoProcessing (analysis r') = true)
    ∧ (hasDatabase (analysis r) = true → hasDatabase (analysis r') = true).
Proof.
  apply (add_dependency_monotone manifest_tensorflow "dependencies" 1
           "puppeteer" (JString "^22.0.0")
           {| weight := 8; category := "Browser Automation" |}).
  - by vm_compute.
  - elem_of_list.
  - by vm_compute.
  - apply (bool_decide_unpack _). by vm_compute.
  - apply (bool_decide_unpack _). by vm_compute.
Defined.

(** The extended manifest of the witness, and an extension of a manifest
    whose total is already [NaN]. *)
Example add_dependency_reports :
  (∃ r, analyze (add_dependency "dependencies" 1 "puppeteer" (JString "^22.0.0")
                   manifest_tensorflow) = Return r
      ∧ heavyPackages r = ["tensorflow"; "puppeteer"; "sharp"; "jest"]
      ∧ totalWeight r = Num 28)
  ∧ (∃ r, analyze (add_dependency "devDependencies" 0 "sharp" (JString "^0.33.0")
                     manifest_constructor) = Return r
        ∧ heavyPackages r = ["constructor"; "sharp"]
        ∧ totalWeight r = NaN).
Proof. split; eexists; by vm_compute. Qed.

(** * Further properties of the scorer *)

Lemma analyze_report_of_keys pkg :
  analyze pkg =
  match allDeps pkg with
  | Return m => Return (report_of_keys (Object_keys m))
  | Throw e => Throw e
  end.
Proof. done. Qed.

Lemma scan_filter st keys :
  foldl scan_step st keys = foldl scan_step st (filter is_heavy keys).
Proof.
  revert st. induction keys as [|k keys IH]; intros st; [done|].
  rewrite filter_cons. destruct (decide (is_heavy k)) as [Hk|Hk]; cbn [foldl].
  - apply IH.
  - rewrite scan_step_skip by done. apply IH.
Qed.

Lemma report_of_keys_ext keys keys' :
  filter is_heavy keys = filter is_heavy keys' →
  length keys = length keys' →
  report_of_keys keys = report_of_keys keys'.
Proof.
  intros Hf Hl. unfold report_of_keys.
  rewrite (scan_filter _ keys), (scan_filter _ keys'), Hf, Hl. done.
Qed.

Lemma filter_ext_elem {A : Type} (P Q : A → Prop)
    `{!∀ x, Decision (P x)} `{!∀ x, Decision (Q x)} (l : list A) :
  (∀ x, x ∈ l → P x ↔ Q x) → filter P l = filter Q l.
Proof.
  induction l as [|x l IH]; intros Hl; [done|].
  rewrite !filter_cons, IH.
  - destruct (decide (P x)) as [HP|HP], (decide (Q x)) as [HQ|HQ]; try done;
      destruct (Hl x (list_elem_of_here _ _)); tauto.
  - intros y Hy. apply Hl. by apply list_elem_of_further.
Qed.

Lemma filter_all {A : Type} (P : A → Prop) `{!∀ x, Decision (P x)} (l : list A) :
  (∀ x, x ∈ l → P x) → filter P l = l.
Proof.
  induction l as [|x l IH]; intros Hl; [done|].
  rewrite filter_cons_True by (apply Hl, list_elem_of_here).
  f_equal. apply IH. intros y Hy. apply Hl. by apply list_elem_of_further.
Qed.

Lemma foldl_create_keys (src tgt : list (string * json)) :
  NoDup src.*1 →
  (foldl (λ o p, create_data_property p.1 p.2 o) tgt src).*1
  = tgt.*1 ++ filter (λ k, k ∉ tgt.*1) src.*1.
Proof.
  revert tgt. induction src as [|[k v] src IH]; intros tgt Hnd; cbn [foldl].
  - by rewrite app_nil_r.
  - cbn [fmap list_fmap fst] in Hnd. apply NoDup_cons in Hnd as [Hk Hnd].
    rewrite IH by done. cbn [fst snd fmap list_fmap].
    rewrite create_data_property_keys, filter_cons.
    destruct (decide (k ∈ tgt.*1)) as [Hin|Hin].
    + rewrite decide_False by tauto. done.
    + rewrite decide_True by done. rewrite <- app_assoc. cbn [app]. do 2 f_equal.
      apply filter_ext_elem. intros x Hx.
      rewrite elem_of_app, list_elem_of_singleton.
      split; [tauto|]. intros Hn [?| ->]; done.
Qed.

(** The keys of the merged mapping of a well-formed manifest, in creation
    order. *)
Lemma allDeps_well_formed pkg :
  well_formed pkg = true →
  ∃ m, allDeps pkg = Return m
     ∧ m.*1 = Object_keys (dependencies_of "dependencies" pkg)
              ++ filter (λ k, k ∉ (dependencies_of "dependencies" pkg).*1)
                        (Object_keys (dependencies_of "devDependencies" pkg)).
Proof.
  destruct pkg as [| | | | |props]; try done.
  cbn [well_formed dependencies_of allDeps get_member].
  intros [HD HE]%andb_true_iff. eexists. split; [done|].
  assert (∀ d, dependency_object d = true →
               spread_source d = own_property_order (object_of d)
               ∧ NoDup (object_of d).*1) as Hsrc.
  { intros [[| | | | |o]|]; try done; cbn.
    - intros Hnd%bool_decide_eq_true_1. done.
    - intros _. split; [done | apply NoDup_nil_2]. }
  destruct (Hsrc _ HD) as [HsD HnD], (Hsrc _ HE) as [HsE HnE].
  unfold spread. rewrite HsD, HsE.
  rewrite !foldl_create_keys;
    [| by rewrite own_property_order_perm | by rewrite own_property_order_perm].
  cbn [fmap list_fmap app].
  rewrite (filter_all (λ k, k ∉ [])) by (intros; apply not_elem_of_nil).
  unfold Object_keys. f_equal. apply filter_ext_elem. intros x _.
  by rewrite own_property_order_perm.
Qed.

(** A well-formed manifest is scored from its declared names. *)
Lemma analyze_well_formed pkg :
  well_formed pkg = true →
  analyze pkg = Return (report_of_keys (declared_names pkg)).
Proof.
  intros Hwf. destruct (allDeps_well_formed pkg Hwf) as (m & Hm & Hkeys).
  rewrite analyze_report_of_keys, Hm. f_equal.
  set (d := dependencies_of "dependencies" pkg) in *.
  set (e := dependencies_of "devDependencies" pkg) in *.
  apply report_of_keys_ext.
  - rewrite (Object_keys_filter is_heavy m) by apply is_heavy_not_index.
    rewrite Hkeys. unfold declared_names. fold d e. rewrite !filter_app.
    rewrite (Object_keys_filter is_heavy d) by apply is_heavy_not_index.
    f_equal. rewrite !list_filter_filter.
    apply Object_keys_filter. intros k [Hk _]. by apply is_heavy_not_index.
  - rewrite Object_keys_perm, length_fmap, <- (length_fmap fst m), Hkeys.
    unfold declared_names. fold d e. rewrite !length_app. f_equal.
    + by rewrite Object_keys_perm.
    + by rewrite Object_keys_perm.
Qed.

Lemma add_dependency_dependencies_of props field i k v f :
  dependencies_of f (add_dependency field i k v (JObject props)) =
  if decide (f = field)
  then take i (dependencies_of field (JObject props))
       ++ (k, v) :: drop i (dependencies_of field (JObject props))
  else dependencies_of f (JObject props).
Proof.
  cbn [add_dependency dependencies_of].
  destruct (decide (f = field)) as [->|Hne].
  - by rewrite own_property_create_eq.
  - by rewrite own_property_create_ne.
Qed.

Lemma inserted_names {A : Type} (o : list (string * A)) i k v :
  (take i o ++ (k, v) :: drop i o).*1 = take i o.*1 ++ k :: drop i o.*1.
Proof. by rewrite fmap_app, fmap_cons, fmap_take, fmap_drop. Qed.

Lemma add_dependency_well_formed pkg field i k v :
  well_formed pkg = true →
  field ∈ ["dependencies"; "devDependencies"] →
  k ∉ (dependencies_of field pkg).*1 →
  well_formed (add_dependency field i k v pkg) = true.
Proof.
  destruct pkg as [| | | | |props]; try done.
  intros [HD HE]%andb_true_iff Hfield Hk.
  cbn [add_dependency well_formed].
  assert (NoDup (dependencies_of field (JObject props)).*1) as Hnd.
  { cbn [dependencies_of].
    apply elem_of_cons in Hfield as [->|Hfield];
      [|apply list_elem_of_singleton in Hfield as ->].
    - destruct (own_property props "dependencies") as [[| | | | |o]|];
        try done; cbn in *;
        [by apply bool_decide_eq_true_1 in HD | apply NoDup_nil_2].
    - destruct (own_property props "devDependencies") as [[| | | | |o]|];
        try done; cbn in *;
        [by apply bool_decide_eq_true_1 in HE | apply NoDup_nil_2]. }
  assert (NoDup (take i (dependencies_of field (JObject props))
                 ++ (k, v) :: drop i (dependencies_of field (JObject props))).*1)
    as Hnd'.
  { rewrite inserted_names.
    rewrite <- (take_drop i (dependencies_of field (JObject props)).*1) in Hnd, Hk.
    apply NoDup_app in Hnd as (H1 & H2 & H3).
    rewrite elem_of_app in Hk.
    apply NoDup_app. split_and!; [done| |].
    - intros x Hx [->|Hx']%elem_of_cons; [tauto | by apply (H2 x)].
    - apply NoDup_cons. tauto. }
  apply andb_true_iff.
  apply elem_of_cons in Hfield as [->|Hfield];
    [|apply list_elem_of_singleton in Hfield as ->].
  - rewrite own_property_create_eq, own_property_create_ne by done.
    split; [by apply bool_decide_eq_true_2 | done].
  - rewrite own_property_create_eq, own_property_create_ne by done.
    split; [done | by apply bool_decide_eq_true_2].
Qed.

(** The declared names after [add_dependency] of a new name: the new name
    is inserted and the others keep their places. *)
Lemma add_dependency_declared_names pkg field i k v :
  well_formed pkg = true →
  field ∈ ["dependencies"; "devDependencies"] →
  k ∉ (dependencies_of "dependencies" pkg).*1 →
  k ∉ (dependencies_of "devDependencies" pkg).*1 →
  ∃ l1 l2, declared_names pkg = l1 ++ l2
         ∧ declared_names (add_dependency field i k v pkg) = l1 ++ k :: l2.
Proof.
  destruct pkg as [| | | | |props]; try done.
  intros _ Hfield Hk1 Hk2. unfold declared_names.
  rewrite !add_dependency_dependencies_of.
  set (d := dependencies_of "dependencies" (JObject props)) in *.
  set (e := dependencies_of "devDependencies" (JObject props)) in *.
  apply elem_of_cons in Hfield as [->|Hfield];
    [|apply list_elem_of_singleton in Hfield as ->].
  - rewrite decide_True, decide_False by done. fold d.
    rewrite inserted_names.
    assert (filter (λ x, x ∉ take i d.*1 ++ k :: drop i d.*1) e.*1
            = filter (λ x, x ∉ d.*1) e.*1) as ->.
    { apply filter_ext_elem. intros x Hx.
      rewrite <- (take_drop i d.*1) at 3.
      rewrite !elem_of_app, elem_of_cons.
      split; [tauto|]. intros Hn [?|[->|?]]; tauto. }
    exists (take i d.*1), (drop i d.*1 ++ filter (λ x, x ∉ d.*1) e.*1).
    split.
    + by rewrite app_assoc, take_drop.
    + by rewrite <- app_assoc.
  - rewrite decide_False, decide_True by done. fold e.
    rewrite inserted_names. rewrite !(filter_app (λ x, x ∉ d.*1)).
    rewrite filter_cons_True by done.
    exists (d.*1 ++ filter (λ x, x ∉ d.*1) (take i e.*1)),
           (filter (λ x, x ∉ d.*1) (drop i e.*1)).
    split.
    + by rewrite <- app_assoc, <- filter_app, take_drop.
    + by rewrite <- app_assoc.
Qed.

(** ** Totals that are no numbers *)

Lemma foldl_number_add_NaN (l : list number) a :
  foldl number_add (Num a) l = NaN ↔ NaN ∈ l.
Proof.
  revert a. induction l as [|x l IH]; intros a; cbn [foldl].
  - split; [done | intros H; by apply elem_of_nil in H].
  - rewrite elem_of_cons. destruct x as [z|]; cbn [number_add].
    + rewrite IH. split; [tauto | intros [?|?]; done].
    + rewrite foldl_number_add_start. cbn. tauto.
Qed.

Lemma Object_prototype_not_catalog k :
  k ∈ Object_prototype → heavyPackagesList !! k = None.
Proof.
  intros Hk. destruct (heavyPackagesList !! k) as [e|] eqn:He; [|done].
  apply heavyPackagesList_lookup in He.
  pose proof heavyPackagesList_entries_Forall as HF.
  rewrite Forall_forall in HF. destruct (HF _ He) as (_ & _ & Hn & _). done.
Qed.

Lemma weight_number_NaN k : weight_number k = NaN ↔ k ∈ Object_prototype.
Proof.
  unfold weight_number, heavyPackagesList_get. split.
  - destruct (heavyPackagesList !! k); [done|].
    by destruct (decide (k ∈ Object_prototype)).
  - intros Hk. rewrite (Object_prototype_not_catalog k Hk).
    by rewrite decide_True.
Qed.

Lemma is_heavy_cases k :
  is_heavy k ↔ is_Some (heavyPackagesList !! k) ∨ k ∈ Object_prototype.
Proof.
  unfold is_heavy, heavyPackagesList_get.
  destruct (heavyPackagesList !! k) as [e|].
  - split; [left; by eexists | intros _; by eexists].
  - destruct (decide (k ∈ Object_prototype)).
    + split; [by right | intros _; by eexists].
    + split; [by intros [? ?] | intros [[? ?]|?]; done].
Qed.

(** ** Integer totals *)

Lemma foldl_weight_number_sum (l : list string) a z :
  (∀ k, k ∈ l → is_heavy k) →
  foldl number_add (Num a) (weight_number <$> l) = Num z →
  (∀ k, k ∈ l → is_Some (heavyPackagesList !! k))
  ∧ z = a + catalog_weight_sum l.
Proof.
  revert a. induction l as [|k l IH]; intros a Hl; cbn [fmap list_fmap foldl].
  - intros [= <-]. split; [intros k Hk; by apply elem_of_nil in Hk|].
    cbn. lia.
  - destruct (weight_number k) as [w|] eqn:Hw; cbn [number_add].
    + intros Hz. apply IH in Hz as [H1 H2];
        [|intros k' Hk'; by apply Hl, list_elem_of_further].
      assert (is_Some (heavyPackagesList !! k) ∧ w = catalog_weight k) as [Hk ->].
      { pose proof (Hl k (list_elem_of_here _ _)) as [Hk|Hk]%is_heavy_cases.
        - split; [done|]. destruct Hk as [e He].
          rewrite (weight_number_catalog k e He) in Hw.
          unfold catalog_weight. rewrite He. congruence.
        - apply weight_number_NaN in Hk. congruence. }
      split.
      * intros k' [->|Hk']%elem_of_cons; auto.
      * cbn [catalog_weight_sum foldr]. fold (catalog_weight_sum l). lia.
    + rewrite foldl_number_add_start. done.
Qed.

Lemma catalog_weight_range k :
  is_Some (heavyPackagesList !! k) → 3 ≤ catalog_weight k ≤ 10.
Proof.
  intros [e He]. unfold catalog_weight. rewrite He.
  by apply (heavyPackagesList_weight k).
Qed.

Lemma catalog_weight_nonneg k : 0 ≤ catalog_weight k.
Proof.
  unfold catalog_weight. destruct (heavyPackagesList !! k) as [e|] eqn:He; [|done].
  apply heavyPackagesList_weight in He. lia.
Qed.

Lemma catalog_weight_sum_range (l : list string) :
  (∀ k, k ∈ l → is_Some (heavyPackagesList !! k)) →
  3 * Z.of_nat (length l) ≤ catalog_weight_sum l ≤ 10 * Z.of_nat (length l).
Proof.
  induction l as [|k l IH]; intros Hl; [cbn; lia|].
  cbn [catalog_weight_sum foldr length]. fold (catalog_weight_sum l).
  pose proof (catalog_weight_range k (Hl k (list_elem_of_here _ _))).
  assert (3 * Z.of_nat (length l) ≤ catalog_weight_sum l ≤ 10 * Z.of_nat (length l)).
  { apply IH. intros k' Hk'. by apply Hl, list_elem_of_further. }
  lia.
Qed.

Lemma catalog_weight_sum_submseteq (l1 l2 : list string) :
  l1 ⊆+ l2 → catalog_weight_sum l1 ≤ catalog_weight_sum l2.
Proof.
  induction 1 as [|x l1 l2 _ IH|x y l|x l1 l2 _ IH|l1 l2 l3 _ IH1 _ IH2];
    cbn [catalog_weight_sum foldr] in *;
    repeat match goal with
           | |- context [foldr _ 0 ?l] => fold (catalog_weight_sum l)
           | H : context [foldr _ 0 ?l] |- _ => fold (catalog_weight_sum l) in H
           end; try lia.
  pose proof (catalog_weight_nonneg x). lia.
Qed.

Lemma catalog_total_value : catalog_total = 197.
Proof. by vm_compute. Qed.

Lemma catalog_weight_sum_entries :
  catalog_weight_sum heavyPackagesList_entries.*1 = catalog_total.
Proof. by vm_compute. Qed.

Lemma report_of_keys_heavyPackages keys :
  heavyPackages (report_of_keys keys) = filter is_heavy keys.
Proof. cbn. by rewrite scan_heavyPackages_foldl. Qed.

Lemma report_of_keys_totalWeight keys :
  totalWeight (report_of_keys keys)
  = foldl number_add (Num 0) (weight_number <$> filter is_heavy keys).
Proof. cbn. by rewrite scan_totalWeight_foldl. Qed.

(** X1: the total weight is no number exactly when a heavy package is
    named like a member of [Object.prototype]; the risk level is then
    CRITICAL. *)
Theorem totalWeight_NaN_iff
    (JSON_parse : string → option json) (packageJson : string) :
  (totalWeight (execute JSON_parse packageJson) = NaN ↔
   ∃ k, k ∈ heavyPackages (execute JSON_parse packageJson)
        ∧ k ∈ Object_prototype)
  ∧ (totalWeight (execute JSON_parse packageJson) = NaN →
     riskLevel (execute JSON_parse packageJson) = CRITICAL).
Proof.
  apply (execute_ind JSON_parse (λ r,
    (totalWeight r = NaN ↔ ∃ k, k ∈ heavyPackages r ∧ k ∈ Object_prototype)
    ∧ (totalWeight r = NaN → riskLevel r = CRITICAL))).
  - split; [|done]. split; [done|].
    intros [k [Hk _]]. by apply elem_of_nil in Hk.
  - intros pkg r _ (m & _ & _ & Ht & _ & Hc & _)%analyze_Return.
    split; [|by intros Hn; rewrite Hc, Hn].
    rewrite Ht, foldl_number_add_NaN, list_elem_of_fmap.
    split.
    + intros [k [Hk Hin]]. exists k. split; [done|].
      by apply weight_number_NaN.
    + intros [k [Hin Hk]]. exists k. split; [|done].
      symmetry. by apply weight_number_NaN.
Qed.

Lemma totalWeight_NaN_iff_witness :
  totalWeight (execute reference_parse scenario_constructor) = NaN.
Proof.
  apply (totalWeight_NaN_iff reference_parse scenario_constructor).
  exists "constructor". split; [vm_compute | unfold Object_prototype]; elem_of_list.
Defined.

(** X2: a total weight that is an integer is the sum of the catalog
    weights of the heavy packages, all of which are catalog names; it lies
    between 3 and 10 times their number and never exceeds 197, the sum of
    the whole catalog. *)
Theorem totalWeight_integer_bounds
    (JSON_parse : string → option json) (packageJson : string) (z : Z) :
  totalWeight (execute JSON_parse packageJson) = Num z →
  (∀ k, k ∈ heavyPackages (execute JSON_parse packageJson) →
        is_Some (heavyPackagesList !! k))
  ∧ z = catalog_weight_sum (heavyPackages (execute JSON_parse packageJson))
  ∧ 3 * Z.of_nat (length (heavyPackages (execute JSON_parse packageJson))) ≤ z
  ∧ z ≤ 10 * Z.of_nat (length (heavyPackages (execute JSON_parse packageJson)))
  ∧ z ≤ 197.
Proof.
  apply (execute_ind JSON_parse (λ r,
    totalWeight r = Num z →
    (∀ k, k ∈ heavyPackages r → is_Some (heavyPackagesList !! k))
    ∧ z = catalog_weight_sum (heavyPackages r)
    ∧ 3 * Z.of_nat (length (heavyPackages r)) ≤ z
    ∧ z ≤ 10 * Z.of_nat (length (heavyPackages r))
    ∧ z ≤ 197)).
  - intros [= <-]. cbn. split_and!; try lia.
    intros k Hk. by apply elem_of_nil in Hk.
  - intros pkg r _ (m & Hm & Hh & Ht & _)%analyze_Return Hz.
    rewrite Ht in Hz.
    apply foldl_weight_number_sum in Hz as [Hcat ->].
    2:{ intros k. rewrite Hh. by intros [? _]%list_elem_of_filter. }
    pose proof (catalog_weight_sum_range _ Hcat).
    split_and!; try done; try lia.
    rewrite Z.add_0_l, <- catalog_total_value, <- catalog_weight_sum_entries.
    apply catalog_weight_sum_submseteq, NoDup_submseteq.
    + rewrite Hh. apply NoDup_filter, Object_keys_NoDup.
      by apply (allDeps_NoDup pkg).
    + intros k [e He]%Hcat. apply heavyPackagesList_lookup in He.
      apply list_elem_of_fmap. by exists (k, e).
Qed.

Lemma totalWeight_integer_bounds_witness :
  3 * Z.of_nat (length (heavyPackages (execute reference_parse scenario_tensorflow)))
    ≤ 20
  ∧ 20 ≤ 10 * Z.of_nat (length (heavyPackages (execute reference_parse scenario_tensorflow))).
Proof.
  destruct (totalWeight_integer_bounds reference_parse scenario_tensorflow 20)
    as (_ & _ & H1 & H2 & _); [by vm_compute | done].
Defined.

(** ** Well-formed manifests *)

(** X3: the heavy packages of a well-formed manifest are the heavy names
    of [dependencies] in the order written, followed by the heavy names of
    [devDependencies] that [dependencies] does not declare, in the order
    written. *)
Theorem heavyPackages_declared_order (pkg : json) :
  well_formed pkg = true →
  ∃ r, analyze pkg = Return r
     ∧ heavyPackages r
       = filter is_heavy (dependencies_of "dependencies" pkg).*1
         ++ filter is_heavy
              (filter (λ k, k ∉ (dependencies_of "dependencies" pkg).*1)
                      (dependencies_of "devDependencies" pkg).*1).
Proof.
  intros Hwf. eexists. split; [by apply analyze_well_formed|].
  rewrite report_of_keys_heavyPackages. unfold declared_names.
  by rewrite filter_app.
Qed.

Lemma heavyPackages_declared_order_witness :
  ∃ r, analyze manifest_tensorflow = Return r
     ∧ heavyPackages r
       = filter is_heavy (dependencies_of "dependencies" manifest_tensorflow).*1
         ++ filter is_heavy
              (filter (λ k, k ∉ (dependencies_of "dependencies" manifest_tensorflow).*1)
                      (dependencies_of "devDependencies" manifest_tensorflow).*1).
Proof. apply (heavyPackages_declared_order manifest_tensorflow). by vm_compute. Defined.

Lemma declared_names_NoDup pkg :
  well_formed pkg = true → NoDup (declared_names pkg).
Proof.
  destruct pkg as [| | | | |props]; try done.
  intros [HD HE]%andb_true_iff. unfold declared_names. cbn [dependencies_of].
  assert (∀ d, dependency_object d = true → NoDup (object_of d).*1) as Hnd.
  { intros [[| | | | |o]|]; try done; cbn.
    - by intros ?%bool_decide_eq_true_1.
    - intros _. apply NoDup_nil_2. }
  apply NoDup_app. split_and!.
  - by apply Hnd.
  - intros x Hx [Hn _]%list_elem_of_filter. done.
  - by apply NoDup_filter, Hnd.
Qed.

Lemma declared_names_elem pkg k :
  k ∈ declared_names pkg
  ↔ k ∈ (dependencies_of "dependencies" pkg).*1
    ∨ k ∈ (dependencies_of "devDependencies" pkg).*1.
Proof.
  unfold declared_names. rewrite elem_of_app, list_elem_of_filter.
  destruct (decide (k ∈ (dependencies_of "dependencies" pkg).*1)); tauto.
Qed.

(** X4: [totalDependencies] of a well-formed manifest counts the distinct
    names of the two dependency sets: a name declared in both counts once.
    It is at least the size of either set, at most the sum of the two, and
    never below the number of heavy packages. *)
Theorem totalDependencies_distinct_names (pkg : json) :
  well_formed pkg = true →
  ∃ r, analyze pkg = Return r
     ∧ totalDependencies (analysis r) = length (declared_names pkg)
     ∧ NoDup (declared_names pkg)
     ∧ (∀ k, k ∈ declared_names pkg
             ↔ k ∈ (dependencies_of "dependencies" pkg).*1
               ∨ k ∈ (dependencies_of "devDependencies" pkg).*1)
     ∧ (length (dependencies_of "dependencies" pkg)
        ≤ totalDependencies (analysis r))%nat
     ∧ (length (dependencies_of "devDependencies" pkg)
        ≤ totalDependencies (analysis r))%nat
     ∧ (totalDependencies (analysis r)
        ≤ length (dependencies_of "dependencies" pkg)
          + length (dependencies_of "devDependencies" pkg))%nat
     ∧ (length (heavyPackages r) ≤ totalDependencies (analysis r))%nat.
Proof.
  intros Hwf. eexists. split; [by apply analyze_well_formed|].
  rewrite report_of_keys_heavyPackages.
  change (totalDependencies (analysis (report_of_keys (declared_names pkg))))
    with (length (declared_names pkg)).
  split; [done|]. split; [by apply declared_names_NoDup|].
  split; [apply declared_names_elem|].
  split_and!.
  - unfold declared_names. rewrite length_app, length_fmap. lia.
  - rewrite <- (length_fmap fst (dependencies_of "devDependencies" pkg)).
    apply submseteq_length, NoDup_submseteq.
    + destruct pkg as [| | | | |props]; try done.
      apply andb_true_iff in Hwf as [_ HE]. cbn [dependencies_of].
      destruct (own_property props "devDependencies") as [[| | | | |o]|];
        try done; cbn in *;
        [by apply bool_decide_eq_true_1 in HE | apply NoDup_nil_2].
    + intros k Hk. apply declared_names_elem. by right.
  - unfold declared_names. rewrite length_app, !length_fmap.
    pose proof (length_filter (λ k, k ∉ (dependencies_of "dependencies" pkg).*1)
                  (dependencies_of "devDependencies" pkg).*1) as Hf.
    rewrite length_fmap in Hf. lia.
  - apply length_filter.
Qed.

Lemma totalDependencies_distinct_names_witness :
  ∃ r, analyze manifest_shadowed = Return r
     ∧ totalDependencies (analysis r) = 1%nat.
Proof.
  destruct (totalDependencies_distinct_names manifest_shadowed) as (r & Hr & Hn & _);
    [by vm_compute|].
  exists r. split; [done|]. rewrite Hn. by vm_compute.
Defined.

(** X5: the declared version ranges, and any other value a dependency
    name is given, do not enter the score: two well-formed manifests whose
    dependency sets list the same names in the same order are scored
    alike. *)
Theorem versions_ignored (pkg pkg' : json) :
  well_formed pkg = true →
  well_formed pkg' = true →
  (dependencies_of "dependencies" pkg).*1
    = (dependencies_of "dependencies" pkg').*1 →
  (dependencies_of "devDependencies" pkg).*1
    = (dependencies_of "devDependencies" pkg').*1 →
  analyze pkg = analyze pkg'.
Proof.
  intros Hwf Hwf' Hd He. rewrite !analyze_well_formed by done.
  unfold declared_names. by rewrite Hd, He.
Qed.

Lemma versions_ignored_witness :
  analyze manifest_tensorflow
  = analyze (JObject [
      ("name", JString "demo");
      ("devDependencies", JObject [("jest", JString "29.7.0")]);
      ("dependencies",
       JObject [("tensorflow", JNull); ("sharp", JObject [])])]).
Proof. apply versions_ignored; by vm_compute. Defined.

(** X6: a dependency whose name is neither in the catalog nor a member
    name of [Object.prototype] only counts: adding it anywhere to either
    set of a well-formed manifest leaves the heavy packages, the total
    weight, the categories, the risk level and the five flags as they
    were, and raises [totalDependencies] by one. *)
Theorem unknown_dependency_only_counts
    (pkg : json) (field : string) (i : nat) (k : string) (v : json) :
  well_formed pkg = true →
  field ∈ ["dependencies"; "devDependencies"] →
  ¬ is_heavy k →
  k ∉ (dependencies_of "dependencies" pkg).*1 →
  k ∉ (dependencies_of "devDependencies" pkg).*1 →
  ∃ r r',
    analyze pkg = Return r
    ∧ analyze (add_dependency field i k v pkg) = Return r'
    ∧ heavyPackages r' = heavyPackages r
    ∧ totalWeight r' = totalWeight r
    ∧ categories r' = categories r
    ∧ riskLevel r' = riskLevel r
    ∧ hasBrowserAutomation (analysis r') = hasBrowserAutomation (analysis r)
    ∧ hasAI (analysis r') = hasAI (analysis r)
    ∧ hasImageProcessing (analysis r') = hasImageProcessing (analysis r)
    ∧ hasVideoProcessing (analysis r') = hasVideoProcessing (analysis r)
    ∧ hasDatabase (analysis r') = hasDatabase (analysis r)
    ∧ totalDependencies (analysis r') = S (totalDependencies (analysis r)).
Proof.
  intros Hwf Hfield Hk Hk1 Hk2.
  destruct (add_dependency_declared_names pkg field i k v Hwf Hfield Hk1 Hk2)
    as (l1 & l2 & Hn & Hn').
  assert (well_formed (add_dependency field i k v pkg) = true) as Hwf'.
  { apply add_dependency_well_formed; [done..|].
    apply elem_of_cons in Hfield as [->|Hfield];
      [|apply list_elem_of_singleton in Hfield as ->]; done. }
  exists (report_of_keys (declared_names pkg)),
         (report_of_keys (declared_names (add_dependency field i k v pkg))).
  split; [by apply analyze_well_formed|].
  split; [by apply analyze_well_formed|].
  assert (foldl scan_step scan_init (declared_names (add_dependency field i k v pkg))
          = foldl scan_step scan_init (declared_names pkg)) as Hscan.
  { rewrite (scan_filter _ (declared_names _)),
            (scan_filter _ (declared_names pkg)), Hn, Hn'.
    by rewrite !filter_app, filter_cons_False. }
  unfold report_of_keys. cbn. rewrite Hscan. split_and!; try done.
  rewrite Hn, Hn', !length_app. cbn. lia.
Qed.

Lemma unknown_dependency_only_counts_witness :
  ∃ r r',
    analyze manifest_tensorflow = Return r
    ∧ analyze (add_dependency "devDependencies" 1 "left-pad" (JString "^1.3.0")
                 manifest_tensorflow) = Return r'
    ∧ heavyPackages r' = heavyPackages r
    ∧ totalWeight r' = totalWeight r
    ∧ totalDependencies (analysis r') = 4%nat.
Proof.
  destruct (unknown_dependency_only_counts manifest_tensorflow "devDependencies" 1
              "left-pad" (JString "^1.3.0"))
    as (r & r' & Hr & Hr' & Hh & Ht & _ & _ & _ & _ & _ & _ & _ & Hn).
  - by vm_compute.
  - elem_of_list.
  - apply (bool_decide_unpack _). by vm_compute.
  - apply (bool_decide_unpack _). by vm_compute.
  - apply (bool_decide_unpack _). by vm_compute.
  - exists r, r'. split_and!; try done. rewrite Hn.
    assert (r = report_of_keys (declared_names manifest_tensorflow)) as ->.
    { rewrite analyze_well_formed in Hr by done. congruence. }
    by vm_compute.
Defined.

(** ** Risk tiers *)

Lemma classify_monotone z z' :
  z ≤ z' → (risk_rank (classify (Num z)) ≤ risk_rank (classify (Num z')))%nat.
Proof.
  intros Hz. unfold classify, number_leb.
  destruct (Z.leb_spec z 5), (Z.leb_spec z 15), (Z.leb_spec z 30),
           (Z.leb_spec z' 5), (Z.leb_spec z' 15), (Z.leb_spec z' 30);
    cbn; lia.
Qed.

(** X7: a new dependency from the catalog enters [heavyPackages] at the
    place its declaration gives it, the other heavy packages keep their
    order, and the risk level does not go down a tier. *)
Theorem catalog_dependency_raises_risk
    (pkg : json) (field : string) (i : nat) (k : string) (v : json) :
  well_formed pkg = true →
  field ∈ ["dependencies"; "devDependencies"] →
  is_Some (heavyPackagesList !! k) →
  k ∉ (dependencies_of "dependencies" pkg).*1 →
  k ∉ (dependencies_of "devDependencies" pkg).*1 →
  ∃ r r' h1 h2,
    analyze pkg = Return r
    ∧ analyze (add_dependency field i k v pkg) = Return r'
    ∧ heavyPackages r = h1 ++ h2
    ∧ heavyPackages r' = h1 ++ k :: h2
    ∧ (risk_rank (riskLevel r) ≤ risk_rank (riskLevel r'))%nat.
Proof.
  intros Hwf Hfield [e He] Hk1 Hk2.
  destruct (add_dependency_declared_names pkg field i k v Hwf Hfield Hk1 Hk2)
    as (l1 & l2 & Hn & Hn').
  assert (well_formed (add_dependency field i k v pkg) = true) as Hwf'.
  { apply add_dependency_well_formed; [done..|].
    apply elem_of_cons in Hfield as [->|Hfield];
      [|apply list_elem_of_singleton in Hfield as ->]; done. }
  assert (is_heavy k) as Hk by (apply is_heavy_cases; left; by eexists).
  exists (report_of_keys (declared_names pkg)),
         (report_of_keys (declared_names (add_dependency field i k v pkg))),
         (filter is_heavy l1), (filter is_heavy l2).
  split; [by apply analyze_well_formed|].
  split; [by apply analyze_well_formed|].
  rewrite !report_of_keys_heavyPackages, Hn, Hn'.
  rewrite !filter_app, filter_cons_True by done.
  split; [done|]. split; [done|].
  change (riskLevel (report_of_keys ?keys))
    with (classify (totalWeight (report_of_keys keys))).
  rewrite !report_of_keys_totalWeight.
  rewrite !filter_app, filter_cons_True by done.
  set (h := filter is_heavy l1 ++ filter is_heavy l2).
  pose proof (heavyPackagesList_weight k e He).
  assert (foldl number_add (Num 0)
            (weight_number <$> filter is_heavy l1 ++ k :: filter is_heavy l2)
          = number_add (foldl number_add (Num 0) (weight_number <$> h))
                       (Num (weight e))) as ->.
  { rewrite (foldl_number_add_perm _ _ (weight_number <$> k :: h))
      by (subst h; by rewrite <- Permutation_middle).
    cbn [fmap list_fmap foldl].
    rewrite foldl_number_add_start, (weight_number_catalog k e He).
    destruct (foldl number_add (Num 0) (weight_number <$> h));
      cbn; f_equal; lia. }
  destruct (foldl number_add (Num 0) (weight_number <$> h)) as [z|];
    cbn [number_add]; [|done].
  apply classify_monotone. lia.
Qed.

Lemma catalog_dependency_raises_risk_witness :
  ∃ r r' h1 h2,
    analyze manifest_tensorflow = Return r
    ∧ analyze (add_dependency "dependencies" 1 "puppeteer" (JString "^22.0.0")
                 manifest_tensorflow) = Return r'
    ∧ heavyPackages r = h1 ++ h2
    ∧ heavyPackages r' = h1 ++ "puppeteer" :: h2
    ∧ (risk_rank (riskLevel r) ≤ risk_rank (riskLevel r'))%nat.
Proof.
  apply (catalog_dependency_raises_risk manifest_tensorflow "dependencies" 1
           "puppeteer" (JString "^22.0.0")).
  - by vm_compute.
  - elem_of_list.
  - vm_compute. by eexists.
  - apply (bool_decide_unpack _). by vm_compute.
  - apply (bool_decide_unpack _). by vm_compute.
Defined.

(** ** Categories *)

Lemma scan_categories_keys st keys c :
  c ∈ (scan_categories (foldl scan_step st keys)).*1
  ↔ c ∈ (scan_categories st).*1 ∨ ∃ k, k ∈ keys ∧ heavy_label k = Some c.
Proof.
  revert st. induction keys as [|k keys IH]; intros st; cbn [foldl].
  - split; [tauto|]. intros [?|[k [Hk _]]]; [done | by apply elem_of_nil in Hk].
  - rewrite IH. unfold scan_step, heavy_label at 2.
    destruct (heavyPackagesList_get k) as [m|] eqn:Hm; cbn [scan_categories].
    + rewrite create_data_property_elem. split.
      * intros [[->|?]|[k' [Hk' Hl]]]; [right|tauto|right].
        -- exists k. split; [apply list_elem_of_here|].
           unfold heavy_label. by rewrite Hm.
        -- exists k'. split; [by apply list_elem_of_further | done].
      * intros [?|[k' [[->|Hk']%elem_of_cons Hl]]]; [tauto| |].
        -- unfold heavy_label in Hl. rewrite Hm in Hl.
           injection Hl as <-. tauto.
        -- right. by exists k'.
    + split.
      * intros [?|[k' [Hk' Hl]]]; [tauto|right].
        exists k'. split; [by apply list_elem_of_further | done].
      * intros [?|[k' [[->|Hk']%elem_of_cons Hl]]]; [tauto| |].
        -- unfold heavy_label in Hl. by rewrite Hm in Hl.
        -- right. by exists k'.
Qed.

Lemma scan_categories_NoDup st keys :
  NoDup (scan_categories st).*1 →
  NoDup (scan_categories (foldl scan_step st keys)).*1.
Proof.
  revert st. induction keys as [|k keys IH]; intros st Hnd; cbn [foldl]; [done|].
  apply IH. unfold scan_step.
  destruct (heavyPackagesList_get k); [|done].
  by apply create_data_property_NoDup.
Qed.

Lemma heavyPackages_is_heavy
    (JSON_parse : string → option json) (packageJson : string) k :
  k ∈ heavyPackages (execute JSON_parse packageJson) → is_heavy k.
Proof.
  apply (execute_ind JSON_parse (λ r, k ∈ heavyPackages r → is_heavy k)).
  - intros H. by apply elem_of_nil in H.
  - intros pkg r _ (m & _ & -> & _)%analyze_Return.
    by intros [? _]%list_elem_of_filter.
Qed.

Lemma categories_labels
    (JSON_parse : string → option json) (packageJson : string) c :
  c ∈ (categories (execute JSON_parse packageJson)).*1
  ↔ ∃ k, k ∈ heavyPackages (execute JSON_parse packageJson)
         ∧ heavy_label k = Some c.
Proof.
  apply (execute_ind JSON_parse (λ r,
    c ∈ (categories r).*1 ↔ ∃ k, k ∈ heavyPackages r ∧ heavy_label k = Some c)).
  - cbn. split; [intros H; by apply elem_of_nil in H|].
    intros [k [Hk _]]. by apply elem_of_nil in Hk.
  - intros pkg r _ (m & _ & Hh & _ & Hc & _)%analyze_Return.
    rewrite Hc, scan_categories_keys, Hh. cbn.
    rewrite elem_of_nil. split.
    + intros [[]|[k [Hk Hl]]]. exists k. split; [|done].
      apply list_elem_of_filter. split; [|done].
      unfold heavy_label in Hl. unfold is_heavy.
      destruct (heavyPackagesList_get k); [by eexists | done].
    + intros [k [[_ Hk]%list_elem_of_filter Hl]]. right. by exists k.
Qed.

Lemma categories_nil_iff
    (JSON_parse : string → option json) (packageJson : string) :
  categories (execute JSON_parse packageJson) = []
  ↔ heavyPackages (execute JSON_parse packageJson) = [].
Proof.
  pose proof (categories_labels JSON_parse packageJson) as Hkeys.
  pose proof (heavyPackages_is_heavy JSON_parse packageJson) as Hheavy.
  split.
  - intros Hc.
    destruct (heavyPackages (execute JSON_parse packageJson)) as [|k h]; [done|].
    destruct (Hheavy k (list_elem_of_here _ _)) as [m Hm].
    assert (to_property_key (member_category m)
            ∈ (categories (execute JSON_parse packageJson)).*1) as Hin.
    { apply Hkeys. exists k. split; [apply list_elem_of_here|].
      unfold heavy_label. by rewrite Hm. }
    rewrite Hc in Hin. by apply elem_of_nil in Hin.
  - intros Hh.
    destruct (categories (execute JSON_parse packageJson)) as [|[c n] cs];
      [done|].
    assert (c ∈ ((c, n) :: cs).*1) as Hin by apply list_elem_of_here.
    apply Hkeys in Hin as [k [Hk _]]. rewrite Hh in Hk.
    by apply elem_of_nil in Hk.
Qed.

(** X8: the keys of [categories] are distinct and are exactly the labels
    under which the heavy packages are filed, the catalog category of a
    catalog name and ["undefined"] for a name inherited from
    [Object.prototype]; so [categories] is empty exactly when
    [heavyPackages] is. *)
Theorem categories_keys
    (JSON_parse : string → option json) (packageJson : string) :
  NoDup (categories (execute JSON_parse packageJson)).*1
  ∧ (∀ c, c ∈ (categories (execute JSON_parse packageJson)).*1
          ↔ ∃ k, k ∈ heavyPackages (execute JSON_parse packageJson)
                 ∧ heavy_label k = Some c)
  ∧ (categories (execute JSON_parse packageJson) = []
     ↔ heavyPackages (execute JSON_parse packageJson) = []).
Proof.
  split; [|split; [apply categories_labels | apply categories_nil_iff]].
  apply execute_ind; [apply NoDup_nil_2|].
  intros pkg r _ (m & _ & _ & _ & -> & _)%analyze_Return.
  apply scan_categories_NoDup, NoDup_nil_2.
Qed.

Lemma categories_keys_witness :
  "Testing" ∈ (categories (execute reference_parse scenario_tensorflow)).*1.
Proof.
  apply (categories_keys reference_parse scenario_tensorflow).
  exists "jest". split; [vm_compute; elem_of_list | by vm_compute].
Defined.

Lemma names_in_catalog :
  Forall (λ k, is_Some (heavyPackagesList !! k))
    (browserAutomation_names ++ AI_names ++ imageProcessing_names
     ++ videoProcessing_names ++ database_names).
Proof. apply (bool_decide_unpack _). by vm_compute. Qed.

Lemma names_categories_entries :
  Forall (λ p : string * HeavyPackageEntry,
    (p.1 ∈ browserAutomation_names ↔ category p.2 = "Browser Automation")
    ∧ (p.1 ∈ AI_names
       ↔ category p.2 = "AI/ML" ∨ category p.2 = "Computer Vision")
    ∧ (p.1 ∈ imageProcessing_names ↔ category p.2 = "Image Processing")
    ∧ (p.1 ∈ videoProcessing_names ↔ category p.2 = "Video Processing")
    ∧ (p.1 ∈ database_names ↔ category p.2 = "Database"))
    heavyPackagesList_entries.
Proof. apply (bool_decide_unpack _). by vm_compute. Qed.

(** Each name array of a flag is one catalog category, that of [hasAI]
    two. *)
Lemma names_labels k :
  is_heavy k →
  (k ∈ browserAutomation_names ↔ heavy_label k = Some "Browser Automation")
  ∧ (k ∈ AI_names
     ↔ heavy_label k = Some "AI/ML" ∨ heavy_label k = Some "Computer Vision")
  ∧ (k ∈ imageProcessing_names ↔ heavy_label k = Some "Image Processing")
  ∧ (k ∈ videoProcessing_names ↔ heavy_label k = Some "Video Processing")
  ∧ (k ∈ database_names ↔ heavy_label k = Some "Database").
Proof.
  intros Hk. unfold heavy_label, heavyPackagesList_get.
  destruct (heavyPackagesList !! k) as [e|] eqn:He.
  - apply heavyPackagesList_lookup in He.
    pose proof names_categories_entries as HF. rewrite Forall_forall in HF.
    destruct (HF _ He) as (H1 & H2 & H3 & H4 & H5). cbn in *.
    rewrite H1, H2, H3, H4, H5.
    split_and!; split; try (intros [= ->]; done); try (by intros ->).
    + intros [->| ->]; tauto.
    + intros [[= ->]|[= ->]]; tauto.
  - assert (∀ names, names ⊆ browserAutomation_names ++ AI_names
                       ++ imageProcessing_names ++ videoProcessing_names
                       ++ database_names → k ∉ names) as Hout.
    { intros names Hsub Hin. pose proof names_in_catalog as HF.
      rewrite Forall_forall in HF. destruct (HF k (Hsub k Hin)) as [e He'].
      congruence. }
    destruct (decide (k ∈ Object_prototype)); cbn.
    + split_and!; split; try (intros [= ?]; done);
        try (intros [[= ?]|[= ?]]; done);
        intros Hin; exfalso; revert Hin; apply Hout;
        intros x Hx; rewrite !elem_of_app; tauto.
    + apply is_heavy_cases in Hk as [[e' He']|Hk]; [congruence | done].
Qed.

(** X9: each capability flag tells whether [categories] has the key of
    its catalog category: Browser Automation, Image Processing, Video
    Processing and Database for four of them, and AI/ML or Computer Vision
    for [hasAI]. *)
Theorem flags_match_categories
    (JSON_parse : string → option json) (packageJson : string) :
  (hasBrowserAutomation (analysis (execute JSON_parse packageJson)) = true
   ↔ "Browser Automation" ∈ (categories (execute JSON_parse packageJson)).*1)
  ∧ (hasAI (analysis (execute JSON_parse packageJson)) = true
     ↔ "AI/ML" ∈ (categories (execute JSON_parse packageJson)).*1
       ∨ "Computer Vision" ∈ (categories (execute JSON_parse packageJson)).*1)
  ∧ (hasImageProcessing (analysis (execute JSON_parse packageJson)) = true
     ↔ "Image Processing" ∈ (categories (execute JSON_parse packageJson)).*1)
  ∧ (hasVideoProcessing (analysis (execute JSON_parse packageJson)) = true
     ↔ "Video Processing" ∈ (categories (execute JSON_parse packageJson)).*1)
  ∧ (hasDatabase (analysis (execute JSON_parse packageJson)) = true
     ↔ "Database" ∈ (categories (execute JSON_parse packageJson)).*1).
Proof.
  pose proof (categories_labels JSON_parse packageJson) as Hkeys.
  pose proof (heavyPackages_is_heavy JSON_parse packageJson) as Hheavy.
  assert (∀ names,
    some_included names (heavyPackages (execute JSON_parse packageJson)) = true
    ↔ ∃ k, k ∈ heavyPackages (execute JSON_parse packageJson) ∧ k ∈ names)
    as Hsome by (intros; apply some_included_true).
  assert (analysis (execute JSON_parse packageJson) =
    {| hasBrowserAutomation :=
         some_included browserAutomation_names
           (heavyPackages (execute JSON_parse packageJson));
       hasAI := some_included AI_names
           (heavyPackages (execute JSON_parse packageJson));
       hasImageProcessing :=
         some_included imageProcessing_names
           (heavyPackages (execute JSON_parse packageJson));
       hasVideoProcessing :=
         some_included videoProcessing_names
           (heavyPackages (execute JSON_parse packageJson));
       hasDatabase := some_included database_names
           (heavyPackages (execute JSON_parse packageJson));
       totalDependencies :=
         totalDependencies (analysis (execute JSON_parse packageJson)) |})
    as ->.
  { apply (execute_ind JSON_parse (λ r, analysis r =
      {| hasBrowserAutomation := some_included browserAutomation_names (heavyPackages r);
         hasAI := some_included AI_names (heavyPackages r);
         hasImageProcessing := some_included imageProcessing_names (heavyPackages r);
         hasVideoProcessing := some_included videoProcessing_names (heavyPackages r);
         hasDatabase := some_included database_names (heavyPackages r);
         totalDependencies := totalDependencies (analysis r) |})); [done|].
    intros pkg r _ (m & _ & _ & _ & _ & _ & Ha)%analyze_Return.
    rewrite Ha at 1. cbn. by rewrite Ha. }
  cbn [hasBrowserAutomation hasAI hasImageProcessing hasVideoProcessing hasDatabase].
  rewrite !Hsome, !Hkeys.
  split_and!; split.
  all: try (intros [k [Hk Hn]]; exists k; split; [done|];
            by apply (names_labels k (Hheavy k Hk))).
  - intros [k [Hk Hn]].
    apply (names_labels k (Hheavy k Hk)) in Hn as [Hn|Hn];
      [left | right]; by exists k.
  - intros [[k [Hk Hn]]|[k [Hk Hn]]]; exists k; (split; [done|]);
      apply (names_labels k (Hheavy k Hk)); tauto.
Qed.

Lemma flags_match_categories_witness :
  hasAI (analysis (execute reference_parse
    (manifest_text "{'devDependencies': {'opencv': '^1.0.0'}}"))) = true.
Proof.
  apply (flags_match_categories reference_parse
    (manifest_text "{'devDependencies': {'opencv': '^1.0.0'}}")).
  right. vm_compute. elem_of_list.
Defined.

(** ** Manifests that declare nothing *)

(** X10: a manifest that is no object, or an object whose [dependencies]
    and [devDependencies] are absent or hold nothing a spread copies
    ([null], a boolean, a number, an empty string, array or object), is
    scored with the zero report, the report of a text that does not
    deserialize. *)
Theorem nothing_declared_zero_report
    (JSON_parse : string → option json) (packageJson : string) (pkg : json) :
  JSON_parse packageJson = Some pkg →
  (∀ props, pkg = JObject props →
     spread_source (own_property props "dependencies") = []
     ∧ spread_source (own_property props "devDependencies") = []) →
  execute JSON_parse packageJson = zero_report.
Proof.
  intros Hparse Hnone. unfold execute, execute_try. rewrite Hparse.
  destruct pkg as [| | | | |props]; try done.
  destruct (Hnone props eq_refl) as [HD HE].
  unfold analyze, allDeps, get_member, spread. by rewrite HD, HE.
Qed.

Lemma nothing_declared_zero_report_witness :
  execute reference_parse
    (manifest_text "{'name': 'demo', 'version': '1.0.0', 'dependencies': {}}")
  = zero_report
  ∧ execute reference_parse (manifest_text "['puppeteer']") = zero_report.
Proof.
  split.
  - eapply nothing_declared_zero_report; [by vm_compute|].
    intros props [= <-]. by vm_compute.
  - eapply nothing_declared_zero_report; [by vm_compute|].
    intros props [=].
Defined.

(** ** Category values *)

Lemma category_weight_cons c k l :
  category_weight c (k :: l)
  = (if decide (heavy_label k = Some c) then catalog_weight k else 0)
    + category_weight c l.
Proof.
  unfold category_weight. rewrite filter_cons.
  by destruct (decide (heavy_label k = Some c)).
Qed.

Lemma scan_category_values keys st zs :
  (∀ k, k ∈ keys → is_heavy k → k ∉ Object_prototype) →
  scan_categories st = as_numbers zs →
  Forall (λ p, 0 < p.2) zs →
  ∃ zs', scan_categories (foldl scan_step st keys) = as_numbers zs'
       ∧ Forall (λ p, 0 < p.2) zs'
       ∧ ∀ c, default 0 (own_property zs' c)
              = default 0 (own_property zs c) + category_weight c keys.
Proof.
  revert st zs. induction keys as [|k keys IH]; intros st zs Hkeys Hc Hpos.
  - exists zs. split_and!; [done..|]. intros c. cbn. lia.
  - cbn [foldl].
    assert (∀ k', k' ∈ keys → is_heavy k' → k' ∉ Object_prototype) as Hkeys'.
    { intros k' Hk'. apply Hkeys. by apply list_elem_of_further. }
    destruct (decide (is_heavy k)) as [Hk|Hk].
    2:{ rewrite scan_step_skip by done.
        destruct (IH st zs Hkeys' Hc Hpos) as (zs' & H1 & H2 & H3).
        exists zs'. split_and!; [done..|]. intros c.
        rewrite H3, category_weight_cons.
        destruct (decide (heavy_label k = Some c)) as [Hl|]; [|lia].
        unfold heavy_label in Hl. unfold is_heavy in Hk.
        destruct (heavyPackagesList_get k); [|done]. destruct Hk. by eexists. }
    specialize (Hkeys k (list_elem_of_here _ _) Hk).
    apply is_heavy_cases in Hk as [[e He]|Hk]; [|done].
    pose proof (heavyPackagesList_weight k e He) as Hw.
    assert (heavyPackagesList_get k = Some (Entry e)) as Hget
      by (unfold heavyPackagesList_get; by rewrite He).
    destruct (IH (scan_step st k)
                (create_data_property (category e)
                   (default 0 (own_property zs (category e)) + weight e) zs))
      as (zs' & H1 & H2 & H3); [done| | |].
    + unfold scan_step. rewrite Hget. cbn.
      rewrite Hc, own_property_as_numbers, <- create_data_property_as_numbers.
      f_equal. destruct (own_property zs (category e)) as [z0|] eqn:Hz0; [|done].
      cbn. apply own_property_Some in Hz0.
      rewrite Forall_forall in Hpos. specialize (Hpos _ Hz0). cbn in Hpos.
      destruct (Z.eqb_spec z0 0); [lia | done].
    + apply create_data_property_Forall; [|done]. cbn.
      destruct (own_property zs (category e)) as [z0|] eqn:Hz0; cbn; [|lia].
      apply own_property_Some in Hz0.
      rewrite Forall_forall in Hpos. specialize (Hpos _ Hz0). cbn in Hpos. lia.
    + exists zs'. split_and!; [done..|]. intros c.
      rewrite H3, category_weight_cons. unfold heavy_label. rewrite Hget. cbn.
      unfold catalog_weight. rewrite He.
      destruct (decide (Some (category e) = Some c)) as [[= <-]|Hne].
      * rewrite own_property_create_eq. cbn. lia.
      * rewrite own_property_create_ne by congruence. lia.
Qed.

(** X11: in a report none of whose heavy packages is named like a member
    of [Object.prototype], the value of each category is the sum of the
    catalog weights of the heavy packages filed under it, a positive
    integer, and the total weight is the sum of these values. *)
Theorem catalog_only_categories
    (JSON_parse : string → option json) (packageJson : string) :
  (∀ k, k ∈ heavyPackages (execute JSON_parse packageJson) →
        k ∉ Object_prototype) →
  (∀ c, c ∈ (categories (execute JSON_parse packageJson)).*1 →
        own_property (categories (execute JSON_parse packageJson)) c
        = Some (Num (category_weight c
                       (heavyPackages (execute JSON_parse packageJson))))
        ∧ 0 < category_weight c (heavyPackages (execute JSON_parse packageJson)))
  ∧ ∃ z, totalWeight (execute JSON_parse packageJson) = Num z
       ∧ number_sum (categories (execute JSON_parse packageJson)).*2 = Num z.
Proof.
  apply (execute_ind JSON_parse (λ r,
    (∀ k, k ∈ heavyPackages r → k ∉ Object_prototype) →
    (∀ c, c ∈ (categories r).*1 →
          own_property (categories r) c
          = Some (Num (category_weight c (heavyPackages r)))
          ∧ 0 < category_weight c (heavyPackages r))
    ∧ ∃ z, totalWeight r = Num z ∧ number_sum (categories r).*2 = Num z)).
  - intros _. split; [|by exists 0].
    intros c Hc. by apply elem_of_nil in Hc.
  - intros pkg r _ Hr Hproto.
    destruct (totalWeight_categories_sum pkg r Hr Hproto) as (z & Hz & Hs & _).
    split; [|by exists z].
    apply analyze_Return in Hr as (m & _ & Hh & _ & Hc & _).
    destruct (scan_category_values (Object_keys m) scan_init [])
      as (zs & Hzs & Hpos & Hval); [|done|done|].
    { intros k Hk Hheavy. apply Hproto. rewrite Hh.
      by apply list_elem_of_filter. }
    assert (∀ c, category_weight c (Object_keys m)
                 = category_weight c (heavyPackages r)) as Hcw.
    { intros c. unfold category_weight. rewrite Hh. f_equal.
      rewrite list_filter_filter. apply filter_ext_elem. intros k _.
      split; [|tauto]. intros Hl. split; [done|].
      unfold heavy_label in Hl. unfold is_heavy.
      destruct (heavyPackagesList_get k); [by eexists | done]. }
    intros c Hin. rewrite Hc, Hzs in *. rewrite own_property_as_numbers.
    unfold as_numbers in Hin. rewrite <- list_fmap_compose in Hin.
    change (c ∈ zs.*1) in Hin.
    destruct (own_property zs c) as [w|] eqn:Hw.
    + specialize (Hval c). rewrite Hw in Hval.
      change (default 0 (Some w)) with w in Hval.
      change (default 0 (own_property [] c)) with 0 in Hval.
      rewrite <- Hcw.
      replace (category_weight c (Object_keys m)) with w by lia.
      split; [done|].
      apply own_property_Some in Hw. rewrite Forall_forall in Hpos.
      apply (Hpos _ Hw).
    + by apply own_property_None in Hw.
Qed.

Lemma catalog_only_categories_witness :
  own_property (categories (execute reference_parse scenario_tensorflow)) "AI/ML"
  = Some (Num (category_weight "AI/ML"
                 (heavyPackages (execute reference_parse scenario_tensorflow)))).
Proof.
  apply (catalog_only_categories reference_parse scenario_tensorflow).
  - intros k Hk. apply (bool_decide_unpack _).
    revert k Hk. apply Forall_forall. apply (bool_decide_unpack _). by vm_compute.
  - vm_compute. elem_of_list.
Defined.

(** * Properties of the other tools *)

(** ** The dependency analysis that reaches the report *)

Lemma default_dependencyAnalysis_zero_report :
  default_dependencyAnalysis = zero_report.
Proof. done. Qed.

(** X12: the dependency analysis in the report prompt is the default one,
    all zero and LOW, unless the listing holds the path [package.json]
    itself, its content was fetched, and the content deserializes to a
    value other than [null]; the analysis is then the scorer's report of
    that content. A listing with manifests in subdirectories only is not
    analysed. *)
Theorem dependency_stage_sources
    (JSON_parse : string → option json) (getFileContent : string → FileResult)
    (paths : list string) :
  (dependency_stage JSON_parse getFileContent paths).2
    ≠ default_dependencyAnalysis →
  "package.json" ∈ paths
  ∧ ok (getFileContent "package.json") = true
  ∧ (dependency_stage JSON_parse getFileContent paths).1
    = content (getFileContent "package.json")
  ∧ ∃ pkg, JSON_parse (content (getFileContent "package.json")) = Some pkg
         ∧ pkg ≠ JNull
         ∧ analyze pkg
           = Return (dependency_stage JSON_parse getFileContent paths).2.
Proof.
  unfold dependency_stage, includes.
  destruct (bool_decide ("package.json" ∈ paths)) eqn:Hin; [|done].
  apply bool_decide_eq_true_1 in Hin.
  destruct (ok (getFileContent "package.json")) eqn:Hok; [|done].
  cbn [fst snd]. intros Hne. split_and!; try done.
  destruct (execute_cases JSON_parse (content (getFileContent "package.json")))
    as [[Hz _]|[pkg [Hp Hr]]]; [done|].
  exists pkg. split_and!; [done| |done].
  intros ->. by rewrite (null_manifest_zero_report _ _ Hp) in Hne.
Qed.

Lemma dependency_stage_sources_witness :
  ∃ pkg, reference_parse scenario_puppeteer = Some pkg
       ∧ pkg ≠ JNull
       ∧ analyze pkg
         = Return (dependency_stage reference_parse
                     (λ _, {| ok := true; content := scenario_puppeteer |})
                     ["README.md"; "package.json"; "src/index.ts"]).2.
Proof.
  apply (dependency_stage_sources reference_parse
           (λ _, {| ok := true; content := scenario_puppeteer |})
           ["README.md"; "package.json"; "src/index.ts"]).
  by vm_compute.
Defined.

(** ** File types *)

Lemma endsWith_comparable p a b :
  endsWith p a = true → endsWith p b = true →
  endsWith a b = true ∨ endsWith b a = true.
Proof.
  induction p as [|c p IH]; cbn [endsWith].
  - destruct (String.eqb_spec EmptyString a) as [<-|]; [|done].
    intros _ Hb. by left.
  - destruct (String.eqb_spec (String c p) a) as [<-|Ha].
    + intros _ Hb. left. cbn [endsWith].
      by destruct (String.eqb_spec (String c p) b).
    + destruct (String.eqb_spec (String c p) b) as [<-|Hb].
      * intros Hp _. right. cbn [endsWith].
        by destruct (String.eqb_spec (String c p) a).
      * apply IH.
Qed.

Lemma language_suffixes_disjoint p :
  (Nat.b2n (endsWith p ".ts") + Nat.b2n (endsWith p ".js")
   + Nat.b2n (endsWith p ".py") + Nat.b2n (endsWith p ".java")
   + Nat.b2n (endsWith p ".go") + Nat.b2n (endsWith p ".rs")
   + Nat.b2n (endsWith p ".cpp" || endsWith p ".c") ≤ 1)%nat.
Proof.
  destruct (endsWith p ".ts") eqn:H1, (endsWith p ".js") eqn:H2,
           (endsWith p ".py") eqn:H3, (endsWith p ".java") eqn:H4,
           (endsWith p ".go") eqn:H5, (endsWith p ".rs") eqn:H6,
           (endsWith p ".cpp") eqn:H7, (endsWith p ".c") eqn:H8;
    cbn; try lia; exfalso;
    match goal with
    | Ha : endsWith p ?a = true, Hb : endsWith p ?b = true |- _ =>
        solve [destruct (endsWith_comparable p a b Ha Hb) as [Hc|Hc];
               vm_compute in Hc; discriminate Hc]
    end.
Qed.

Lemma filter_length_cons {A : Type} (f : A → bool) x l :
  length (List.filter f (x :: l)) = (Nat.b2n (f x) + length (List.filter f l))%nat.
Proof. cbn. by destruct (f x). Qed.

(** X13: no path is counted under two languages, so the seven counts of the
    file type analysis add up to at most the number of files. *)
Theorem fileTypes_total (paths : list string) :
  (typescript (fileTypes paths) + javascript (fileTypes paths)
   + python (fileTypes paths) + java (fileTypes paths)
   + go (fileTypes paths) + rust (fileTypes paths)
   + cpp (fileTypes paths) ≤ length paths)%nat.
Proof.
  unfold fileTypes.
  cbn [typescript javascript python java go rust cpp].
  induction paths as [|p paths IH]; [done|].
  rewrite !filter_length_cons. cbn [length].
  pose proof (language_suffixes_disjoint p). lia.
Qed.


(** ** The lines of the prompt *)

Lemma join_cons_nonempty sep x l : x ≠ EmptyString → join sep (x :: l) ≠ EmptyString.
Proof.
  destruct x as [|c x]; [done|]. intros _. unfold join.
  destruct l; cbn; done.
Qed.

Lemma or_else_nonempty s fallback : s ≠ EmptyString → or_else s fallback = s.
Proof. by destruct s. Qed.

Lemma is_heavy_nonempty k : is_heavy k → k ≠ EmptyString.
Proof. intros Hk ->. revert Hk. apply (bool_decide_unpack _). by vm_compute. Qed.

(** X14: the Heavy Packages and Categories lines of the prompt read
    [None] when the scorer found no heavy package, and only then: with a
    heavy package both lines are the joined lists. *)
Theorem report_lines_fallback
    (JSON_parse : string → option json) (packageJson : string) :
  (heavyPackages (execute JSON_parse packageJson) = [] →
   heavyPackages_line (execute JSON_parse packageJson) = "None"
   ∧ categories_line (execute JSON_parse packageJson) = "None")
  ∧ (heavyPackages (execute JSON_parse packageJson) ≠ [] →
     heavyPackages_line (execute JSON_parse packageJson)
       = join ", " (heavyPackages (execute JSON_parse packageJson))
     ∧ heavyPackages_line (execute JSON_parse packageJson) ≠ EmptyString
     ∧ categories_line (execute JSON_parse packageJson)
       = join ", "
           ((λ entry, entry.1 +:+ ": " +:+ number_to_string entry.2)
              <$> own_property_order (categories (execute JSON_parse packageJson)))
     ∧ categories_line (execute JSON_parse packageJson) ≠ EmptyString).
Proof.
  pose proof (categories_nil_iff JSON_parse packageJson) as Hnil.
  pose proof (heavyPackages_is_heavy JSON_parse packageJson) as Hheavy.
  unfold heavyPackages_line, categories_line. split.
  - intros Hh. rewrite Hh. apply Hnil in Hh. rewrite Hh. done.
  - intros Hh.
    assert (join ", " (heavyPackages (execute JSON_parse packageJson))
            ≠ EmptyString) as H1.
    { destruct (heavyPackages (execute JSON_parse packageJson)) as [|k h];
        [done|].
      apply join_cons_nonempty, is_heavy_nonempty, Hheavy, list_elem_of_here. }
    assert (join ", "
              ((λ entry : string * number,
                  entry.1 +:+ ": " +:+ number_to_string entry.2)
                 <$> own_property_order
                       (categories (execute JSON_parse packageJson)))
            ≠ EmptyString) as H2.
    { destruct (own_property_order (categories (execute JSON_parse packageJson)))
        as [|[c n] es] eqn:He.
      - destruct Hh. apply Hnil.
        pose proof (own_property_order_perm
                      (categories (execute JSON_parse packageJson))) as Hperm.
        rewrite He in Hperm. by apply Permutation_nil in Hperm.
      - cbn [fmap list_fmap]. apply join_cons_nonempty. by destruct c. }
    rewrite !or_else_nonempty by done. done.
Qed.

Lemma report_lines_fallback_witness :
  heavyPackages_line (execute reference_parse scenario_tensorflow)
  = join ", " (heavyPackages (execute reference_parse scenario_tensorflow)).
Proof.
  apply (report_lines_fallback reference_parse scenario_tensorflow).
  by vm_compute.
Defined.

Example report_lines_tensorflow :
  heavyPackages_line (execute reference_parse scenario_tensorflow)
  = "tensorflow, sharp, jest"
  ∧ categories_line (execute reference_parse scenario_tensorflow)
    = "AI/ML: 10, Image Processing: 7, Testing: 3"
  ∧ categories_line (execute reference_parse scenario_constructor)
    = "undefined: NaN".
Proof. by vm_compute. Qed.

(** ** The manifest excerpt *)

Lemma substring_0_length n s :
  String.length (substring 0 n s) = Nat.min n (String.length s).
Proof.
  revert n. induction s as [|c s IH]; intros [|n]; cbn; try done.
  by rewrite IH.
Qed.

Lemma substring_0_all n s :
  (String.length s ≤ n)%nat → substring 0 n s = s.
Proof.
  revert n. induction s as [|c s IH]; intros [|n]; cbn; try done; try lia.
  intros Hn. rewrite IH; [done | lia].
Qed.

Lemma append_length a b :
  String.length (a +:+ b) = (String.length a + String.length b)%nat.
Proof.
  induction a as [|c a IH]; [done|].
  change (String c a +:+ b) with (String c (a +:+ b)).
  cbn [String.length]. by rewrite IH.
Qed.

Lemma append_empty a : a +:+ EmptyString = a.
Proof.
  induction a as [|c a IH]; [done|].
  change (String c a +:+ EmptyString) with (String c (a +:+ EmptyString)).
  by rewrite IH.
Qed.

Lemma excerpt_cases n s :
  ((String.length s ≤ n)%nat →
   substring 0 n s
   +:+ (if (n <? String.length s)%nat then "..." else EmptyString) = s)
  ∧ ((n < String.length s)%nat →
     String.length
       (substring 0 n s
        +:+ (if (n <? String.length s)%nat then "..." else EmptyString))
     = (n + 3)%nat).
Proof.
  split; intros Hn.
  - destruct (Nat.ltb_spec n (String.length s)); [lia|].
    by rewrite append_empty, substring_0_all.
  - destruct (Nat.ltb_spec n (String.length s)); [|lia].
    rewrite append_length, substring_0_length. cbn. lia.
Qed.

(** X15: the manifest is quoted whole when it has at most 2000 characters;
    a longer one is cut to its first 2000 characters followed by three
    dots, so the quotation never exceeds 2003 characters. *)
Theorem packageJson_excerpt_bounds (packageJson : string) :
  ((String.length packageJson ≤ 2000)%nat →
   packageJson_excerpt packageJson = packageJson)
  ∧ ((2000 < String.length packageJson)%nat →
     packageJson_excerpt packageJson = substring 0 2000 packageJson +:+ "..."
     ∧ String.length (packageJson_excerpt packageJson) = 2003%nat)
  ∧ (String.length (packageJson_excerpt packageJson) ≤ 2003)%nat.
Proof.
  unfold packageJson_excerpt.
  destruct (excerpt_cases 2000 packageJson) as [Hshort Hlong].
  split; [done|]. split.
  - intros Hn. split; [|by apply Hlong].
    by destruct (Nat.ltb_spec 2000 (String.length packageJson)); [|lia].
  - destruct (Nat.le_gt_cases (String.length packageJson) 2000) as [Hn|Hn].
    + rewrite (Hshort Hn). lia.
    + rewrite (Hlong Hn). done.
Qed.

Lemma packageJson_excerpt_bounds_witness :
  packageJson_excerpt scenario_tensorflow = scenario_tensorflow.
Proof.
  apply (packageJson_excerpt_bounds scenario_tensorflow).
  apply Nat.leb_le. by vm_compute.
Defined.


(** ** Files fetched for the README prompt *)

Lemma List_filter_sublist {A : Type} (f : A → bool) (l : list A) :
  List.filter f l `sublist_of` l.
Proof.
  induction l as [|x l IH]; cbn; [done|].
  destruct (f x); [by apply sublist_skip | by apply sublist_cons].
Qed.

(** X16: at most ten files are fetched for the README prompt; they are
    important paths of the listing, taken in listing order from its
    start, and all of the important paths when there are no more than
    ten. *)
Theorem fetched_paths_bounds (paths : list string) :
  (length (fetched_paths paths) ≤ 10)%nat
  ∧ fetched_paths paths `sublist_of` paths
  ∧ (∀ p, p ∈ fetched_paths paths → important p = true ∧ p ∈ paths)
  ∧ fetched_paths paths `prefix_of` importantPaths paths
  ∧ ((length (importantPaths paths) ≤ 10)%nat →
     fetched_paths paths = importantPaths paths).
Proof.
  unfold fetched_paths. split_and!.
  - rewrite length_take. lia.
  - etrans; [apply sublist_take | apply List_filter_sublist].
  - intros p Hp.
    assert (p ∈ importantPaths paths) as Hin.
    { rewrite <- (take_drop 10 (importantPaths paths)).
      apply elem_of_app. by left. }
    apply list_elem_of_In, filter_In in Hin as [Hin Himp].
    split; [done | by apply list_elem_of_In].
  - apply prefix_take.
  - apply take_ge.
Qed.

Lemma fetched_paths_bounds_witness :
  fetched_paths ["README.md"; "package.json"; "src/index.ts"; "src/app.tsx"]
  = importantPaths ["README.md"; "package.json"; "src/index.ts"; "src/app.tsx"].
Proof.
  apply (fetched_paths_bounds
           ["README.md"; "package.json"; "src/index.ts"; "src/app.tsx"]).
  apply Nat.leb_le. by vm_compute.
Defined.

(** ** Repository size *)






